(** * FreelanceEscrow: the escrow contract of [contracts/freelance_escrow.py]

    A shallow embedding of the contract class [FreelanceEscrow] and the
    properties of its lifecycle, of its evaluation protocol and of its
    read-only views.

    Conventions of the embedding:
    - A Python [str] is the [string] of its UTF-8 bytes.  [len], slices
      and [find] count code points, and [str.upper] is the full Unicode
      case mapping of each code point.
    - [Address] values are strings; the empty address that the constructor
      and [withdraw_as_freelancer] store in [freelancer] is the empty string.
    - [u256] values are integers in [Z]; the contract computes on them with
      Python's unbounded integers.
    - The contract storage [self] is threaded through a small state and
      exception monad.  A raised exception keeps the storage as the method
      left it at the point of the raise, as the Python object would be.
    - The host primitives ([gl.message], [gl.block], [gl.get_webpage],
      [gl.call_llm], [gl.transfer]) are read from an environment record;
      every call of the gateway and of the judge is logged in the world. *)

From Stdlib Require Import ZArith List String Ascii Bool Lia.
From Stdlib Require Import DecimalString DecimalZ DecimalPos.
Import ListNotations.

Open Scope string_scope.
Open Scope Z_scope.

(* ================================================================= *)
(** ** Python string operations used by the contract *)

Module PyStr.

(** A Python [str] is modelled by the string of its UTF-8 bytes.  The
    bytes [10xxxxxx] are the continuation bytes; a code point is a byte
    that is not a continuation byte together with the continuation bytes
    that follow it. *)
Definition is_cont (b : ascii) : bool :=
  match b with
  | Ascii _ _ _ _ _ _ false true => true
  | _ => false
  end.

(** The bytes [0xxxxxxx], the code points below 128. *)
Definition is_ascii (b : ascii) : bool :=
  match b with
  | Ascii _ _ _ _ _ _ _ false => true
  | _ => false
  end.

Definition starts_cont (s : string) : bool :=
  match s with
  | String b _ => is_cont b
  | EmptyString => false
  end.

(** The code points of a text, each as its bytes. *)
Fixpoint chunks (s : string) : list string :=
  match s with
  | EmptyString => []
  | String b rest =>
      if starts_cont rest
      then match chunks rest with
           | c :: cs => String b c :: cs
           | [] => [String b EmptyString]
           end
      else String b EmptyString :: chunks rest
  end.

Fixpoint join (l : list string) : string :=
  match l with
  | [] => EmptyString
  | c :: cs => c ++ join cs
  end.

(** [len(s)]: the number of code points. *)
Definition len (s : string) : Z := Z.of_nat (List.length (chunks s)).

(** [str.upper] on a code point below 128. *)
Definition upper_char (c : ascii) : ascii :=
  let n := nat_of_ascii c in
  if (Nat.leb 97 n && Nat.leb n 122)%bool then ascii_of_nat (n - 32) else c.

(** The UTF-8 bytes of a code point. *)
Definition utf8 (c : N) : string :=
  let byte (n : N) : ascii := ascii_of_N n in
  let cont (n : N) : ascii := byte (128 + n mod 64)%N in
  if (c <? 128)%N then String (byte c) EmptyString
  else if (c <? 2048)%N then
    String (byte (192 + c / 64)%N) (String (cont c) EmptyString)
  else if (c <? 65536)%N then
    String (byte (224 + c / 4096)%N)
      (String (cont (c / 64)%N) (String (cont c) EmptyString))
  else
    String (byte (240 + c / 262144)%N)
      (String (cont (c / 4096)%N)
         (String (cont (c / 64)%N) (String (cont c) EmptyString))).

(** The code points from 128 on that [str.upper] changes, each with the
    code points it becomes (Unicode 14.0, the full case mapping that
    CPython 3.11 applies to each character). *)
Definition upper_points : list (N * list N) := [
  (181, [924]); (223, [83; 83]); (224, [192]); (225, [193]); (226, [194]);
  (227, [195]); (228, [196]); (229, [197]); (230, [198]); (231, [199]);
  (232, [200]); (233, [201]); (234, [202]); (235, [203]); (236, [204]);
  (237, [205]); (238, [206]); (239, [207]); (240, [208]); (241, [209]);
  (242, [210]); (243, [211]); (244, [212]); (245, [213]); (246, [214]);
  (248, [216]); (249, [217]); (250, [218]); (251, [219]); (252, [220]);
  (253, [221]); (254, [222]); (255, [376]); (257, [256]); (259, [258]);
  (261, [260]); (263, [262]); (265, [264]); (267, [266]); (269, [268]);
  (271, [270]); (273, [272]); (275, [274]); (277, [276]); (279, [278]);
  (281, [280]); (283, [282]); (285, [284]); (287, [286]); (289, [288]);
  (291, [290]); (293, [292]); (295, [294]); (297, [296]); (299, [298]);
  (301, [300]); (303, [302]); (305, [73]); (307, [306]); (309, [308]);
  (311, [310]); (314, [313]); (316, [315]); (318, [317]); (320, [319]);
  (322, [321]); (324, [323]); (326, [325]); (328, [327]); (329, [700; 78]);
  (331, [330]); (333, [332]); (335, [334]); (337, [336]); (339, [338]);
  (341, [340]); (343, [342]); (345, [344]); (347, [346]); (349, [348]);
  (351, [350]); (353, [352]); (355, [354]); (357, [356]); (359, [358]);
  (361, [360]); (363, [362]); (365, [364]); (367, [366]); (369, [368]);
  (371, [370]); (373, [372]); (375, [374]); (378, [377]); (380, [379]);
  (382, [381]); (383, [83]); (384, [579]); (387, [386]); (389, [388]);
  (392, [391]); (396, [395]); (402, [401]); (405, [502]); (409, [408]);
  (410, [573]); (414, [544]); (417, [416]); (419, [418]); (421, [420]);
  (424, [423]); (429, [428]); (432, [431]); (436, [435]); (438, [437]);
  (441, [440]); (445, [444]); (447, [503]); (453, [452]); (454, [452]);
  (456, [455]); (457, [455]); (459, [458]); (460, [458]); (462, [461]);
  (464, [463]); (466, [465]); (468, [467]); (470, [469]); (472, [471]);
  (474, [473]); (476, [475]); (477, [398]); (479, [478]); (481, [480]);
  (483, [482]); (485, [484]); (487, [486]); (489, [488]); (491, [490]);
  (493, [492]); (495, [494]); (496, [74; 780]); (498, [497]); (499, [497]);
  (501, [500]); (505, [504]); (507, [506]); (509, [508]); (511, [510]);
  (513, [512]); (515, [514]); (517, [516]); (519, [518]); (521, [520]);
  (523, [522]); (525, [524]); (527, [526]); (529, [528]); (531, [530]);
  (533, [532]); (535, [534]); (537, [536]); (539, [538]); (541, [540]);
  (543, [542]); (547, [546]); (549, [548]); (551, [550]); (553, [552]);
  (555, [554]); (557, [556]); (559, [558]); (561, [560]); (563, [562]);
  (572, [571]); (575, [11390]); (576, [11391]); (578, [577]); (583, [582]);
  (585, [584]); (587, [586]); (589, [588]); (591, [590]); (592, [11375]);
  (593, [11373]); (594, [11376]); (595, [385]); (596, [390]); (598, [393]);
  (599, [394]); (601, [399]); (603, [400]); (604, [42923]); (608, [403]);
  (609, [42924]); (611, [404]); (613, [42893]); (614, [42922]); (616, [407]);
  (617, [406]); (618, [42926]); (619, [11362]); (620, [42925]); (623, [412]);
  (625, [11374]); (626, [413]); (629, [415]); (637, [11364]); (640, [422]);
  (642, [42949]); (643, [425]); (647, [42929]); (648, [430]); (649, [580]);
  (650, [433]); (651, [434]); (652, [581]); (658, [439]); (669, [42930]);
  (670, [42928]); (837, [921]); (881, [880]); (883, [882]); (887, [886]);
  (891, [1021]); (892, [1022]); (893, [1023]); (912, [921; 776; 769]);
  (940, [902]); (941, [904]); (942, [905]); (943, [906]);
  (944, [933; 776; 769]); (945, [913]); (946, [914]); (947, [915]);
  (948, [916]); (949, [917]); (950, [918]); (951, [919]); (952, [920]);
  (953, [921]); (954, [922]); (955, [923]); (956, [924]); (957, [925]);
  (958, [926]); (959, [927]); (960, [928]); (961, [929]); (962, [931]);
  (963, [931]); (964, [932]); (965, [933]); (966, [934]); (967, [935]);
  (968, [936]); (969, [937]); (970, [938]); (971, [939]); (972, [908]);
  (973, [910]); (974, [911]); (976, [914]); (977, [920]); (981, [934]);
  (982, [928]); (983, [975]); (985, [984]); (987, [986]); (989, [988]);
  (991, [990]); (993, [992]); (995, [994]); (997, [996]); (999, [998]);
  (1001, [1000]); (1003, [1002]); (1005, [1004]); (1007, [1006]);
  (1008, [922]); (1009, [929]); (1010, [1017]); (1011, [895]); (1013, [917]);
  (1016, [1015]); (1019, [1018]); (1072, [1040]); (1073, [1041]);
  (1074, [1042]); (1075, [1043]); (1076, [1044]); (1077, [1045]);
  (1078, [1046]); (1079, [1047]); (1080, [1048]); (1081, [1049]);
  (1082, [1050]); (1083, [1051]); (1084, [1052]); (1085, [1053]);
  (1086, [1054]); (1087, [1055]); (1088, [1056]); (1089, [1057]);
  (1090, [1058]); (1091, [1059]); (1092, [1060]); (1093, [1061]);
  (1094, [1062]); (1095, [1063]); (1096, [1064]); (1097, [1065]);
  (1098, [1066]); (1099, [1067]); (1100, [1068]); (1101, [1069]);
  (1102, [1070]); (1103, [1071]); (1104, [1024]); (1105, [1025]);
  (1106, [1026]); (1107, [1027]); (1108, [1028]); (1109, [1029]);
  (1110, [1030]); (1111, [1031]); (1112, [1032]); (1113, [1033]);
  (1114, [1034]); (1115, [1035]); (1116, [1036]); (1117, [1037]);
  (1118, [1038]); (1119, [1039]); (1121, [1120]); (1123, [1122]);
  (1125, [1124]); (1127, [1126]); (1129, [1128]); (1131, [1130]);
  (1133, [1132]); (1135, [1134]); (1137, [1136]); (1139, [1138]);
  (1141, [1140]); (1143, [1142]); (1145, [1144]); (1147, [1146]);
  (1149, [1148]); (1151, [1150]); (1153, [1152]); (1163, [1162]);
  (1165, [1164]); (1167, [1166]); (1169, [1168]); (1171, [1170]);
  (1173, [1172]); (1175, [1174]); (1177, [1176]); (1179, [1178]);
  (1181, [1180]); (1183, [1182]); (1185, [1184]); (1187, [1186]);
  (1189, [1188]); (1191, [1190]); (1193, [1192]); (1195, [1194]);
  (1197, [1196]); (1199, [1198]); (1201, [1200]); (1203, [1202]);
  (1205, [1204]); (1207, [1206]); (1209, [1208]); (1211, [1210]);
  (1213, [1212]); (1215, [1214]); (1218, [1217]); (1220, [1219]);
  (1222, [1221]); (1224, [1223]); (1226, [1225]); (1228, [1227]);
  (1230, [1229]); (1231, [1216]); (1233, [1232]); (1235, [1234]);
  (1237, [1236]); (1239, [1238]); (1241, [1240]); (1243, [1242]);
  (1245, [1244]); (1247, [1246]); (1249, [1248]); (1251, [1250]);
  (1253, [1252]); (1255, [1254]); (1257, [1256]); (1259, [1258]);
  (1261, [1260]); (1263, [1262]); (1265, [1264]); (1267, [1266]);
  (1269, [1268]); (1271, [1270]); (1273, [1272]); (1275, [1274]);
  (1277, [1276]); (1279, [1278]); (1281, [1280]); (1283, [1282]);
  (1285, [1284]); (1287, [1286]); (1289, [1288]); (1291, [1290]);
  (1293, [1292]); (1295, [1294]); (1297, [1296]); (1299, [1298]);
  (1301, [1300]); (1303, [1302]); (1305, [1304]); (1307, [1306]);
  (1309, [1308]); (1311, [1310]); (1313, [1312]); (1315, [1314]);
  (1317, [1316]); (1319, [1318]); (1321, [1320]); (1323, [1322]);
  (1325, [1324]); (1327, [1326]); (1377, [1329]); (1378, [1330]);
  (1379, [1331]); (1380, [1332]); (1381, [1333]); (1382, [1334]);
  (1383, [1335]); (1384, [1336]); (1385, [1337]); (1386, [1338]);
  (1387, [1339]); (1388, [1340]); (1389, [1341]); (1390, [1342]);
  (1391, [1343]); (1392, [1344]); (1393, [1345]); (1394, [1346]);
  (1395, [1347]); (1396, [1348]); (1397, [1349]); (1398, [1350]);
  (1399, [1351]); (1400, [1352]); (1401, [1353]); (1402, [1354]);
  (1403, [1355]); (1404, [1356]); (1405, [1357]); (1406, [1358]);
  (1407, [1359]); (1408, [1360]); (1409, [1361]); (1410, [1362]);
  (1411, [1363]); (1412, [1364]); (1413, [1365]); (1414, [1366]);
  (1415, [1333; 1362]); (4304, [7312]); (4305, [7313]); (4306, [7314]);
  (4307, [7315]); (4308, [7316]); (4309, [7317]); (4310, [7318]);
  (4311, [7319]); (4312, [7320]); (4313, [7321]); (4314, [7322]);
  (4315, [7323]); (4316, [7324]); (4317, [7325]); (4318, [7326]);
  (4319, [7327]); (4320, [7328]); (4321, [7329]); (4322, [7330]);
  (4323, [7331]); (4324, [7332]); (4325, [7333]); (4326, [7334]);
  (4327, [7335]); (4328, [7336]); (4329, [7337]); (4330, [7338]);
  (4331, [7339]); (4332, [7340]); (4333, [7341]); (4334, [7342]);
  (4335, [7343]); (4336, [7344]); (4337, [7345]); (4338, [7346]);
  (4339, [7347]); (4340, [7348]); (4341, [7349]); (4342, [7350]);
  (4343, [7351]); (4344, [7352]); (4345, [7353]); (4346, [7354]);
  (4349, [7357]); (4350, [7358]); (4351, [7359]); (5112, [5104]);
  (5113, [5105]); (5114, [5106]); (5115, [5107]); (5116, [5108]);
  (5117, [5109]); (7296, [1042]); (7297, [1044]); (7298, [1054]);
  (7299, [1057]); (7300, [1058]); (7301, [1058]); (7302, [1066]);
  (7303, [1122]); (7304, [42570]); (7545, [42877]); (7549, [11363]);
  (7566, [42950]); (7681, [7680]); (7683, [7682]); (7685, [7684]);
  (7687, [7686]); (7689, [7688]); (7691, [7690]); (7693, [7692]);
  (7695, [7694]); (7697, [7696]); (7699, [7698]); (7701, [7700]);
  (7703, [7702]); (7705, [7704]); (7707, [7706]); (7709, [7708]);
  (7711, [7710]); (7713, [7712]); (7715, [7714]); (7717, [7716]);
  (7719, [7718]); (7721, [7720]); (7723, [7722]); (7725, [7724]);
  (7727, [7726]); (7729, [7728]); (7731, [7730]); (7733, [7732]);
  (7735, [7734]); (7737, [7736]); (7739, [7738]); (7741, [7740]);
  (7743, [7742]); (7745, [7744]); (7747, [7746]); (7749, [7748]);
  (7751, [7750]); (7753, [7752]); (7755, [7754]); (7757, [7756]);
  (7759, [7758]); (7761, [7760]); (7763, [7762]); (7765, [7764]);
  (7767, [7766]); (7769, [7768]); (7771, [7770]); (7773, [7772]);
  (7775, [7774]); (7777, [7776]); (7779, [7778]); (7781, [7780]);
  (7783, [7782]); (7785, [7784]); (7787, [7786]); (7789, [7788]);
  (7791, [7790]); (7793, [7792]); (7795, [7794]); (7797, [7796]);
  (7799, [7798]); (7801, [7800]); (7803, [7802]); (7805, [7804]);
  (7807, [7806]); (7809, [7808]); (7811, [7810]); (7813, [7812]);
  (7815, [7814]); (7817, [7816]); (7819, [7818]); (7821, [7820]);
  (7823, [7822]); (7825, [7824]); (7827, [7826]); (7829, [7828]);
  (7830, [72; 817]); (7831, [84; 776]); (7832, [87; 778]); (7833, [89; 778]);
  (7834, [65; 702]); (7835, [7776]); (7841, [7840]); (7843, [7842]);
  (7845, [7844]); (7847, [7846]); (7849, [7848]); (7851, [7850]);
  (7853, [7852]); (7855, [7854]); (7857, [7856]); (7859, [7858]);
  (7861, [7860]); (7863, [7862]); (7865, [7864]); (7867, [7866]);
  (7869, [7868]); (7871, [7870]); (7873, [7872]); (7875, [7874]);
  (7877, [7876]); (7879, [7878]); (7881, [7880]); (7883, [7882]);
  (7885, [7884]); (7887, [7886]); (7889, [7888]); (7891, [7890]);
  (7893, [7892]); (7895, [7894]); (7897, [7896]); (7899, [7898]);
  (7901, [7900]); (7903, [7902]); (7905, [7904]); (7907, [7906]);
  (7909, [7908]); (7911, [7910]); (7913, [7912]); (7915, [7914]);
  (7917, [7916]); (7919, [7918]); (7921, [7920]); (7923, [7922]);
  (7925, [7924]); (7927, [7926]); (7929, [7928]); (7931, [7930]);
  (7933, [7932]); (7935, [7934]); (7936, [7944]); (7937, [7945]);
  (7938, [7946]); (7939, [7947]); (7940, [7948]); (7941, [7949]);
  (7942, [7950]); (7943, [7951]); (7952, [7960]); (7953, [7961]);
  (7954, [7962]); (7955, [7963]); (7956, [7964]); (7957, [7965]);
  (7968, [7976]); (7969, [7977]); (7970, [7978]); (7971, [7979]);
  (7972, [7980]); (7973, [7981]); (7974, [7982]); (7975, [7983]);
  (7984, [7992]); (7985, [7993]); (7986, [7994]); (7987, [7995]);
  (7988, [7996]); (7989, [7997]); (7990, [7998]); (7991, [7999]);
  (8000, [8008]); (8001, [8009]); (8002, [8010]); (8003, [8011]);
  (8004, [8012]); (8005, [8013]); (8016, [933; 787]); (8017, [8025]);
  (8018, [933; 787; 768]); (8019, [8027]); (8020, [933; 787; 769]);
  (8021, [8029]); (8022, [933; 787; 834]); (8023, [8031]); (8032, [8040]);
  (8033, [8041]); (8034, [8042]); (8035, [8043]); (8036, [8044]);
  (8037, [8045]); (8038, [8046]); (8039, [8047]); (8048, [8122]);
  (8049, [8123]); (8050, [8136]); (8051, [8137]); (8052, [8138]);
  (8053, [8139]); (8054, [8154]); (8055, [8155]); (8056, [8184]);
  (8057, [8185]); (8058, [8170]); (8059, [8171]); (8060, [8186]);
  (8061, [8187]); (8064, [7944; 921]); (8065, [7945; 921]);
  (8066, [7946; 921]); (8067, [7947; 921]); (8068, [7948; 921]);
  (8069, [7949; 921]); (8070, [7950; 921]); (8071, [7951; 921]);
  (8072, [7944; 921]); (8073, [7945; 921]); (8074, [7946; 921]);
  (8075, [7947; 921]); (8076, [7948; 921]); (8077, [7949; 921]);
  (8078, [7950; 921]); (8079, [7951; 921]); (8080, [7976; 921]);
  (8081, [7977; 921]); (8082, [7978; 921]); (8083, [7979; 921]);
  (8084, [7980; 921]); (8085, [7981; 921]); (8086, [7982; 921]);
  (8087, [7983; 921]); (8088, [7976; 921]); (8089, [7977; 921]);
  (8090, [7978; 921]); (8091, [7979; 921]); (8092, [7980; 921]);
  (8093, [7981; 921]); (8094, [7982; 921]); (8095, [7983; 921]);
  (8096, [8040; 921]); (8097, [8041; 921]); (8098, [8042; 921]);
  (8099, [8043; 921]); (8100, [8044; 921]); (8101, [8045; 921]);
  (8102, [8046; 921]); (8103, [8047; 921]); (8104, [8040; 921]);
  (8105, [8041; 921]); (8106, [8042; 921]); (8107, [8043; 921]);
  (8108, [8044; 921]); (8109, [8045; 921]); (8110, [8046; 921]);
  (8111, [8047; 921]); (8112, [8120]); (8113, [8121]); (8114, [8122; 921]);
  (8115, [913; 921]); (8116, [902; 921]); (8118, [913; 834]);
  (8119, [913; 834; 921]); (8124, [913; 921]); (8126, [921]);
  (8130, [8138; 921]); (8131, [919; 921]); (8132, [905; 921]);
  (8134, [919; 834]); (8135, [919; 834; 921]); (8140, [919; 921]);
  (8144, [8152]); (8145, [8153]); (8146, [921; 776; 768]);
  (8147, [921; 776; 769]); (8150, [921; 834]); (8151, [921; 776; 834]);
  (8160, [8168]); (8161, [8169]); (8162, [933; 776; 768]);
  (8163, [933; 776; 769]); (8164, [929; 787]); (8165, [8172]);
  (8166, [933; 834]); (8167, [933; 776; 834]); (8178, [8186; 921]);
  (8179, [937; 921]); (8180, [911; 921]); (8182, [937; 834]);
  (8183, [937; 834; 921]); (8188, [937; 921]); (8526, [8498]);
  (8560, [8544]); (8561, [8545]); (8562, [8546]); (8563, [8547]);
  (8564, [8548]); (8565, [8549]); (8566, [8550]); (8567, [8551]);
  (8568, [8552]); (8569, [8553]); (8570, [8554]); (8571, [8555]);
  (8572, [8556]); (8573, [8557]); (8574, [8558]); (8575, [8559]);
  (8580, [8579]); (9424, [9398]); (9425, [9399]); (9426, [9400]);
  (9427, [9401]); (9428, [9402]); (9429, [9403]); (9430, [9404]);
  (9431, [9405]); (9432, [9406]); (9433, [9407]); (9434, [9408]);
  (9435, [9409]); (9436, [9410]); (9437, [9411]); (9438, [9412]);
  (9439, [9413]); (9440, [9414]); (9441, [9415]); (9442, [9416]);
  (9443, [9417]); (9444, [9418]); (9445, [9419]); (9446, [9420]);
  (9447, [9421]); (9448, [9422]); (9449, [9423]); (11312, [11264]);
  (11313, [11265]); (11314, [11266]); (11315, [11267]); (11316, [11268]);
  (11317, [11269]); (11318, [11270]); (11319, [11271]); (11320, [11272]);
  (11321, [11273]); (11322, [11274]); (11323, [11275]); (11324, [11276]);
  (11325, [11277]); (11326, [11278]); (11327, [11279]); (11328, [11280]);
  (11329, [11281]); (11330, [11282]); (11331, [11283]); (11332, [11284]);
  (11333, [11285]); (11334, [11286]); (11335, [11287]); (11336, [11288]);
  (11337, [11289]); (11338, [11290]); (11339, [11291]); (11340, [11292]);
  (11341, [11293]); (11342, [11294]); (11343, [11295]); (11344, [11296]);
  (11345, [11297]); (11346, [11298]); (11347, [11299]); (11348, [11300]);
  (11349, [11301]); (11350, [11302]); (11351, [11303]); (11352, [11304]);
  (11353, [11305]); (11354, [11306]); (11355, [11307]); (11356, [11308]);
  (11357, [11309]); (11358, [11310]); (11359, [11311]); (11361, [11360]);
  (11365, [570]); (11366, [574]); (11368, [11367]); (11370, [11369]);
  (11372, [11371]); (11379, [11378]); (11382, [11381]); (11393, [11392]);
  (11395, [11394]); (11397, [11396]); (11399, [11398]); (11401, [11400]);
  (11403, [11402]); (11405, [11404]); (11407, [11406]); (11409, [11408]);
  (11411, [11410]); (11413, [11412]); (11415, [11414]); (11417, [11416]);
  (11419, [11418]); (11421, [11420]); (11423, [11422]); (11425, [11424]);
  (11427, [11426]); (11429, [11428]); (11431, [11430]); (11433, [11432]);
  (11435, [11434]); (11437, [11436]); (11439, [11438]); (11441, [11440]);
  (11443, [11442]); (11445, [11444]); (11447, [11446]); (11449, [11448]);
  (11451, [11450]); (11453, [11452]); (11455, [11454]); (11457, [11456]);
  (11459, [11458]); (11461, [11460]); (11463, [11462]); (11465, [11464]);
  (11467, [11466]); (11469, [11468]); (11471, [11470]); (11473, [11472]);
  (11475, [11474]); (11477, [11476]); (11479, [11478]); (11481, [11480]);
  (11483, [11482]); (11485, [11484]); (11487, [11486]); (11489, [11488]);
  (11491, [11490]); (11500, [11499]); (11502, [11501]); (11507, [11506]);
  (11520, [4256]); (11521, [4257]); (11522, [4258]); (11523, [4259]);
  (11524, [4260]); (11525, [4261]); (11526, [4262]); (11527, [4263]);
  (11528, [4264]); (11529, [4265]); (11530, [4266]); (11531, [4267]);
  (11532, [4268]); (11533, [4269]); (11534, [4270]); (11535, [4271]);
  (11536, [4272]); (11537, [4273]); (11538, [4274]); (11539, [4275]);
  (11540, [4276]); (11541, [4277]); (11542, [4278]); (11543, [4279]);
  (11544, [4280]); (11545, [4281]); (11546, [4282]); (11547, [4283]);
  (11548, [4284]); (11549, [4285]); (11550, [4286]); (11551, [4287]);
  (11552, [4288]); (11553, [4289]); (11554, [4290]); (11555, [4291]);
  (11556, [4292]); (11557, [4293]); (11559, [4295]); (11565, [4301]);
  (42561, [42560]); (42563, [42562]); (42565, [42564]); (42567, [42566]);
  (42569, [42568]); (42571, [42570]); (42573, [42572]); (42575, [42574]);
  (42577, [42576]); (42579, [42578]); (42581, [42580]); (42583, [42582]);
  (42585, [42584]); (42587, [42586]); (42589, [42588]); (42591, [42590]);
  (42593, [42592]); (42595, [42594]); (42597, [42596]); (42599, [42598]);
  (42601, [42600]); (42603, [42602]); (42605, [42604]); (42625, [42624]);
  (42627, [42626]); (42629, [42628]); (42631, [42630]); (42633, [42632]);
  (42635, [42634]); (42637, [42636]); (42639, [42638]); (42641, [42640]);
  (42643, [42642]); (42645, [42644]); (42647, [42646]); (42649, [42648]);
  (42651, [42650]); (42787, [42786]); (42789, [42788]); (42791, [42790]);
  (42793, [42792]); (42795, [42794]); (42797, [42796]); (42799, [42798]);
  (42803, [42802]); (42805, [42804]); (42807, [42806]); (42809, [42808]);
  (42811, [42810]); (42813, [42812]); (42815, [42814]); (42817, [42816]);
  (42819, [42818]); (42821, [42820]); (42823, [42822]); (42825, [42824]);
  (42827, [42826]); (42829, [42828]); (42831, [42830]); (42833, [42832]);
  (42835, [42834]); (42837, [42836]); (42839, [42838]); (42841, [42840]);
  (42843, [42842]); (42845, [42844]); (42847, [42846]); (42849, [42848]);
  (42851, [42850]); (42853, [42852]); (42855, [42854]); (42857, [42856]);
  (42859, [42858]); (42861, [42860]); (42863, [42862]); (42874, [42873]);
  (42876, [42875]); (42879, [42878]); (42881, [42880]); (42883, [42882]);
  (42885, [42884]); (42887, [42886]); (42892, [42891]); (42897, [42896]);
  (42899, [42898]); (42900, [42948]); (42903, [42902]); (42905, [42904]);
  (42907, [42906]); (42909, [42908]); (42911, [42910]); (42913, [42912]);
  (42915, [42914]); (42917, [42916]); (42919, [42918]); (42921, [42920]);
  (42933, [42932]); (42935, [42934]); (42937, [42936]); (42939, [42938]);
  (42941, [42940]); (42943, [42942]); (42945, [42944]); (42947, [42946]);
  (42952, [42951]); (42954, [42953]); (42961, [42960]); (42967, [42966]);
  (42969, [42968]); (42998, [42997]); (43859, [42931]); (43888, [5024]);
  (43889, [5025]); (43890, [5026]); (43891, [5027]); (43892, [5028]);
  (43893, [5029]); (43894, [5030]); (43895, [5031]); (43896, [5032]);
  (43897, [5033]); (43898, [5034]); (43899, [5035]); (43900, [5036]);
  (43901, [5037]); (43902, [5038]); (43903, [5039]); (43904, [5040]);
  (43905, [5041]); (43906, [5042]); (43907, [5043]); (43908, [5044]);
  (43909, [5045]); (43910, [5046]); (43911, [5047]); (43912, [5048]);
  (43913, [5049]); (43914, [5050]); (43915, [5051]); (43916, [5052]);
  (43917, [5053]); (43918, [5054]); (43919, [5055]); (43920, [5056]);
  (43921, [5057]); (43922, [5058]); (43923, [5059]); (43924, [5060]);
  (43925, [5061]); (43926, [5062]); (43927, [5063]); (43928, [5064]);
  (43929, [5065]); (43930, [5066]); (43931, [5067]); (43932, [5068]);
  (43933, [5069]); (43934, [5070]); (43935, [5071]); (43936, [5072]);
  (43937, [5073]); (43938, [5074]); (43939, [5075]); (43940, [5076]);
  (43941, [5077]); (43942, [5078]); (43943, [5079]); (43944, [5080]);
  (43945, [5081]); (43946, [5082]); (43947, [5083]); (43948, [5084]);
  (43949, [5085]); (43950, [5086]); (43951, [5087]); (43952, [5088]);
  (43953, [5089]); (43954, [5090]); (43955, [5091]); (43956, [5092]);
  (43957, [5093]); (43958, [5094]); (43959, [5095]); (43960, [5096]);
  (43961, [5097]); (43962, [5098]); (43963, [5099]); (43964, [5100]);
  (43965, [5101]); (43966, [5102]); (43967, [5103]); (64256, [70; 70]);
  (64257, [70; 73]); (64258, [70; 76]); (64259, [70; 70; 73]);
  (64260, [70; 70; 76]); (64261, [83; 84]); (64262, [83; 84]);
  (64275, [1348; 1350]); (64276, [1348; 1333]); (64277, [1348; 1339]);
  (64278, [1358; 1350]); (64279, [1348; 1341]); (65345, [65313]);
  (65346, [65314]); (65347, [65315]); (65348, [65316]); (65349, [65317]);
  (65350, [65318]); (65351, [65319]); (65352, [65320]); (65353, [65321]);
  (65354, [65322]); (65355, [65323]); (65356, [65324]); (65357, [65325]);
  (65358, [65326]); (65359, [65327]); (65360, [65328]); (65361, [65329]);
  (65362, [65330]); (65363, [65331]); (65364, [65332]); (65365, [65333]);
  (65366, [65334]); (65367, [65335]); (65368, [65336]); (65369, [65337]);
  (65370, [65338]); (66600, [66560]); (66601, [66561]); (66602, [66562]);
  (66603, [66563]); (66604, [66564]); (66605, [66565]); (66606, [66566]);
  (66607, [66567]); (66608, [66568]); (66609, [66569]); (66610, [66570]);
  (66611, [66571]); (66612, [66572]); (66613, [66573]); (66614, [66574]);
  (66615, [66575]); (66616, [66576]); (66617, [66577]); (66618, [66578]);
  (66619, [66579]); (66620, [66580]); (66621, [66581]); (66622, [66582]);
  (66623, [66583]); (66624, [66584]); (66625, [66585]); (66626, [66586]);
  (66627, [66587]); (66628, [66588]); (66629, [66589]); (66630, [66590]);
  (66631, [66591]); (66632, [66592]); (66633, [66593]); (66634, [66594]);
  (66635, [66595]); (66636, [66596]); (66637, [66597]); (66638, [66598]);
  (66639, [66599]); (66776, [66736]); (66777, [66737]); (66778, [66738]);
  (66779, [66739]); (66780, [66740]); (66781, [66741]); (66782, [66742]);
  (66783, [66743]); (66784, [66744]); (66785, [66745]); (66786, [66746]);
  (66787, [66747]); (66788, [66748]); (66789, [66749]); (66790, [66750]);
  (66791, [66751]); (66792, [66752]); (66793, [66753]); (66794, [66754]);
  (66795, [66755]); (66796, [66756]); (66797, [66757]); (66798, [66758]);
  (66799, [66759]); (66800, [66760]); (66801, [66761]); (66802, [66762]);
  (66803, [66763]); (66804, [66764]); (66805, [66765]); (66806, [66766]);
  (66807, [66767]); (66808, [66768]); (66809, [66769]); (66810, [66770]);
  (66811, [66771]); (66967, [66928]); (66968, [66929]); (66969, [66930]);
  (66970, [66931]); (66971, [66932]); (66972, [66933]); (66973, [66934]);
  (66974, [66935]); (66975, [66936]); (66976, [66937]); (66977, [66938]);
  (66979, [66940]); (66980, [66941]); (66981, [66942]); (66982, [66943]);
  (66983, [66944]); (66984, [66945]); (66985, [66946]); (66986, [66947]);
  (66987, [66948]); (66988, [66949]); (66989, [66950]); (66990, [66951]);
  (66991, [66952]); (66992, [66953]); (66993, [66954]); (66995, [66956]);
  (66996, [66957]); (66997, [66958]); (66998, [66959]); (66999, [66960]);
  (67000, [66961]); (67001, [66962]); (67003, [66964]); (67004, [66965]);
  (68800, [68736]); (68801, [68737]); (68802, [68738]); (68803, [68739]);
  (68804, [68740]); (68805, [68741]); (68806, [68742]); (68807, [68743]);
  (68808, [68744]); (68809, [68745]); (68810, [68746]); (68811, [68747]);
  (68812, [68748]); (68813, [68749]); (68814, [68750]); (68815, [68751]);
  (68816, [68752]); (68817, [68753]); (68818, [68754]); (68819, [68755]);
  (68820, [68756]); (68821, [68757]); (68822, [68758]); (68823, [68759]);
  (68824, [68760]); (68825, [68761]); (68826, [68762]); (68827, [68763]);
  (68828, [68764]); (68829, [68765]); (68830, [68766]); (68831, [68767]);
  (68832, [68768]); (68833, [68769]); (68834, [68770]); (68835, [68771]);
  (68836, [68772]); (68837, [68773]); (68838, [68774]); (68839, [68775]);
  (68840, [68776]); (68841, [68777]); (68842, [68778]); (68843, [68779]);
  (68844, [68780]); (68845, [68781]); (68846, [68782]); (68847, [68783]);
  (68848, [68784]); (68849, [68785]); (68850, [68786]); (71872, [71840]);
  (71873, [71841]); (71874, [71842]); (71875, [71843]); (71876, [71844]);
  (71877, [71845]); (71878, [71846]); (71879, [71847]); (71880, [71848]);
  (71881, [71849]); (71882, [71850]); (71883, [71851]); (71884, [71852]);
  (71885, [71853]); (71886, [71854]); (71887, [71855]); (71888, [71856]);
  (71889, [71857]); (71890, [71858]); (71891, [71859]); (71892, [71860]);
  (71893, [71861]); (71894, [71862]); (71895, [71863]); (71896, [71864]);
  (71897, [71865]); (71898, [71866]); (71899, [71867]); (71900, [71868]);
  (71901, [71869]); (71902, [71870]); (71903, [71871]); (93792, [93760]);
  (93793, [93761]); (93794, [93762]); (93795, [93763]); (93796, [93764]);
  (93797, [93765]); (93798, [93766]); (93799, [93767]); (93800, [93768]);
  (93801, [93769]); (93802, [93770]); (93803, [93771]); (93804, [93772]);
  (93805, [93773]); (93806, [93774]); (93807, [93775]); (93808, [93776]);
  (93809, [93777]); (93810, [93778]); (93811, [93779]); (93812, [93780]);
  (93813, [93781]); (93814, [93782]); (93815, [93783]); (93816, [93784]);
  (93817, [93785]); (93818, [93786]); (93819, [93787]); (93820, [93788]);
  (93821, [93789]); (93822, [93790]); (93823, [93791]); (125218, [125184]);
  (125219, [125185]); (125220, [125186]); (125221, [125187]);
  (125222, [125188]); (125223, [125189]); (125224, [125190]);
  (125225, [125191]); (125226, [125192]); (125227, [125193]);
  (125228, [125194]); (125229, [125195]); (125230, [125196]);
  (125231, [125197]); (125232, [125198]); (125233, [125199]);
  (125234, [125200]); (125235, [125201]); (125236, [125202]);
  (125237, [125203]); (125238, [125204]); (125239, [125205]);
  (125240, [125206]); (125241, [125207]); (125242, [125208]);
  (125243, [125209]); (125244, [125210]); (125245, [125211]);
  (125246, [125212]); (125247, [125213]); (125248, [125214]);
  (125249, [125215]); (125250, [125216]); (125251, [125217])
]%N.

(** The same table on UTF-8 bytes. *)
Definition upper_table : list (string * string) :=
  Eval vm_compute in
    List.map (fun kv => (utf8 (fst kv), join (List.map utf8 (snd kv))))
             upper_points.

Fixpoint assoc (c : string) (t : list (string * string)) : option string :=
  match t with
  | [] => None
  | (k, v) :: t' => if (k =? c)%string then Some v else assoc c t'
  end.

(** [str.upper] on one code point. *)
Definition upper_chunk (c : string) : string :=
  match c with
  | EmptyString => EmptyString
  | String b EmptyString => String (upper_char b) EmptyString
  | String b rest =>
      match assoc c upper_table with
      | Some u => u
      | None => String (upper_char b) rest
      end
  end.

(** [s.upper()] *)
Definition upper (s : string) : string := join (List.map upper_chunk (chunks s)).

(** [sub in s] *)
Fixpoint contains (sub s : string) : bool :=
  if String.prefix sub s then true
  else match s with
       | EmptyString => false
       | String _ rest => contains sub rest
       end.

(** [s[:n]]: the first [n] code points. *)
Definition slice_to (n : nat) (s : string) : string := join (firstn n (chunks s)).

(** [s.find(sub)], counted in code points, [None] standing for Python's
    -1. *)
Fixpoint find_from (i : nat) (sub s : string) : option nat :=
  if String.prefix sub s then Some i
  else match s with
       | EmptyString => None
       | String c rest => find_from (if is_cont c then i else S i) sub rest
       end.

Definition find (sub s : string) : option nat := find_from 0 sub s.

(** One code point in UTF-8: a byte below 128 alone, or a lead byte
    [110xxxxx], [1110xxxx] or [11110xxx] with one, two or three
    continuation bytes. *)
Definition is_code_point (c : string) : bool :=
  match c with
  | String (Ascii _ _ _ _ _ _ _ false) EmptyString => true
  | String (Ascii _ _ _ _ _ false true true) (String _ EmptyString) => true
  | String (Ascii _ _ _ _ false true true true)
           (String _ (String _ EmptyString)) => true
  | String (Ascii _ _ _ false true true true true)
           (String _ (String _ (String _ EmptyString))) => true
  | _ => false
  end.

(** The strings that are the UTF-8 bytes of a Python [str]. *)
Definition is_text (s : string) : bool := forallb is_code_point (chunks s).

(** The last byte of a text is below 128, or the text is empty. *)
Fixpoint ends_ascii (s : string) : bool :=
  match s with
  | EmptyString => true
  | String b EmptyString => is_ascii b
  | String _ rest => ends_ascii rest
  end.

Fixpoint last_byte (s : string) : option ascii :=
  match s with
  | EmptyString => None
  | String b EmptyString => Some b
  | String _ rest => last_byte rest
  end.

Fixpoint all_cont (s : string) : bool :=
  match s with
  | EmptyString => true
  | String b rest => is_cont b && all_cont rest
  end.

(** What the proofs use of an entry of the table: the key starts with a
    lead byte and goes on; the value is not empty, starts a code point,
    is its own upper-casing and does not end with the letter D. *)
Definition table_entry_ok (kv : string * string) : bool :=
  match fst kv with
  | String h (String _ _) => negb (is_ascii h) && negb (is_cont h)
  | _ => false
  end
  && match snd kv with
     | String v _ => negb (is_cont v)
     | EmptyString => false
     end
  && (upper (snd kv) =? snd kv)%string
  && negb (match last_byte (snd kv) with
           | Some b => (b =? "D")%char
           | None => false
           end).

(** The shape of the code points that [chunks] gives: a first byte and
    then continuation bytes only, the first byte being a continuation
    byte in the first code point at most. *)
Definition chunk_ok (c : string) : Prop :=
  match c with
  | String _ t => all_cont t = true
  | EmptyString => False
  end.

Definition well_chunked (l : list string) : Prop :=
  Forall chunk_ok l /\ Forall (fun c => starts_cont c = false) (tl l).

End PyStr.

(* ================================================================= *)
(** ** State variables *)

Definition Address := string.

(** The empty address, the value of [freelancer] until someone accepts. *)
Definition no_address : Address := EmptyString.

Record Job := mkJob {
  client : Address;
  freelancer : Address;
  job_title : string;
  requirements : string;
  payment_amount : Z;
  submission_url : string;
  status : string;
  created_at : Z;
  deadline : Z;
  evaluation_result : string
}.

Definition set_freelancer (a : Address) (j : Job) : Job :=
  mkJob (client j) a (job_title j) (requirements j) (payment_amount j)
        (submission_url j) (status j) (created_at j) (deadline j)
        (evaluation_result j).

Definition set_submission_url (u : string) (j : Job) : Job :=
  mkJob (client j) (freelancer j) (job_title j) (requirements j)
        (payment_amount j) u (status j) (created_at j) (deadline j)
        (evaluation_result j).

Definition set_status (s : string) (j : Job) : Job :=
  mkJob (client j) (freelancer j) (job_title j) (requirements j)
        (payment_amount j) (submission_url j) s (created_at j) (deadline j)
        (evaluation_result j).

Definition set_evaluation_result (r : string) (j : Job) : Job :=
  mkJob (client j) (freelancer j) (job_title j) (requirements j)
        (payment_amount j) (submission_url j) (status j) (created_at j)
        (deadline j) r.

(* ================================================================= *)
(** ** The host environment and the world *)

(** What one transaction sees of the host: [gl.message.sender],
    [gl.message.value], [gl.block.timestamp], the answer of
    [gl.get_webpage] for a URL (the page text, or the text [str(e)] of the
    exception it raises), the answer of [gl.call_llm] for a prompt, and
    whether [gl.transfer] carries a transfer out or raises. *)
Record Env := mkEnv {
  message_sender : Address;
  message_value : Z;
  block_timestamp : Z;
  webpage : string -> string + string;
  llm : string -> string;
  gateway : Address -> Z -> bool
}.

(** One call of [gl.transfer]: the recipient, the amount, and whether the
    gateway carried it out ([true]) or raised ([false]). *)
Record Transfer := mkTransfer {
  recipient : Address;
  amount : Z;
  carried_out : bool
}.

(** The contract storage together with the log of gateway calls and the
    log of prompts sent to the judge, both oldest first. *)
Record World := mkWorld {
  self : Job;
  transfers : list Transfer;
  prompts : list string
}.

Inductive exn : Type :=
| AssertionError (msg : string)
| TransferError (to : Address) (amt : Z).

(** What a method returns: [None], or a dict of strings. *)
Inductive value : Type :=
| VNone
| VDict (items : list (string * string)).

Inductive Outcome (A : Type) : Type :=
| Return (a : A)
| Raise (e : exn).

Arguments Return {A} a.
Arguments Raise {A} e.

Definition M (A : Type) : Type := World -> Outcome A * World.

Definition ret {A} (a : A) : M A := fun w => (Return a, w).

Definition bind {A B} (m : M A) (k : A -> M B) : M B :=
  fun w => match m w with
           | (Return a, w') => k a w'
           | (Raise e, w') => (Raise e, w')
           end.

Notation "x <- m ;; k" := (bind m (fun x => k))
  (at level 61, m at next level, right associativity).
Notation "m ;; k" := (bind m (fun _ => k))
  (at level 61, right associativity).

Definition raise {A} (e : exn) : M A := fun w => (Raise e, w).

(** [assert cond, msg] *)
Definition assert (cond : bool) (msg : string) : M unit :=
  if cond then ret tt else raise (AssertionError msg).

(** Reading [self.<field>]. *)
Definition attr {A} (field : Job -> A) : M A :=
  fun w => (Return (field (self w)), w).

(** Writing [self.<field> = v]. *)
Definition setattr (update : Job -> Job) : M unit :=
  fun w => (Return tt, mkWorld (update (self w)) (transfers w) (prompts w)).

(** [gl.transfer(to, amt)] *)
Definition gl_transfer (gl : Env) (to : Address) (amt : Z) : M unit :=
  fun w =>
    if gateway gl to amt
    then (Return tt,
          mkWorld (self w) (transfers w ++ [mkTransfer to amt true]) (prompts w))
    else (Raise (TransferError to amt),
          mkWorld (self w) (transfers w ++ [mkTransfer to amt false]) (prompts w)).

(** [await gl.call_llm(prompt)] *)
Definition gl_call_llm (gl : Env) (prompt : string) : M string :=
  fun w => (Return (llm gl prompt),
            mkWorld (self w) (transfers w) (prompts w ++ [prompt])).

(* ================================================================= *)
(** ** Constructor *)

(** [__init__(self, job_title, requirements, deadline_hours)], run on a
    fresh instance: the storage it leaves, or the exception it raises. *)
Definition init (gl : Env) (title reqs : string) (deadline_hours : Z)
  : exn + Job :=
  if negb (0 <? PyStr.len title) then inl (AssertionError "Job title required")
  else if negb (0 <? PyStr.len reqs) then inl (AssertionError "Requirements required")
  else if negb (0 <? deadline_hours) then inl (AssertionError "Deadline must be in the future")
  else if negb (0 <? message_value gl) then inl (AssertionError "Must include payment")
  else inr {| client := message_sender gl;
              freelancer := no_address;
              job_title := title;
              requirements := reqs;
              payment_amount := message_value gl;
              submission_url := EmptyString;
              status := "open";
              created_at := block_timestamp gl;
              deadline := block_timestamp gl + deadline_hours * 3600;
              evaluation_result := EmptyString |}.

(** The world right after a deployment: nothing transferred, nothing asked. *)
Definition deployed (j : Job) : World := mkWorld j [] [].

(* ================================================================= *)
(** ** Freelancer actions *)

Definition accept_job (gl : Env) : M value :=
  st <- attr status ;;
  assert (st =? "open")%string "Job not available" ;;
  c <- attr client ;;
  assert (negb (message_sender gl =? c)%string) "Client cannot accept own job" ;;
  setattr (set_freelancer (message_sender gl)) ;;
  setattr (set_status "in_progress") ;;
  ret VNone.

Definition submit_work (gl : Env) (url : string) : M value :=
  st <- attr status ;;
  assert (st =? "in_progress")%string "Job not in progress" ;;
  f <- attr freelancer ;;
  assert (message_sender gl =? f)%string "Only assigned freelancer can submit" ;;
  assert (0 <? PyStr.len url) "URL cannot be empty" ;;
  setattr (set_submission_url url) ;;
  setattr (set_status "submitted") ;;
  ret VNone.

(* ================================================================= *)
(** ** Evaluation *)

(** The f-string of step 2. *)
Definition evaluation_prompt (j : Job) (submission_content : string) : string :=
  "You are an impartial evaluator for a freelance job submission.

## JOB DETAILS

**Title:** " ++ job_title j ++ "

**Requirements:**
" ++ requirements j ++ "

## SUBMISSION

**URL:** " ++ submission_url j ++ "

**Content Preview:**
" ++ PyStr.slice_to 4000 submission_content ++ "

## YOUR TASK

Evaluate whether this submission meets the stated requirements.

Consider:
1. Does it address ALL stated requirements?
2. Is the implementation functional and reasonable?
3. Are there critical missing pieces that would make it unusable?

Be fair but strict. The freelancer was paid to deliver what was asked.

## REQUIRED RESPONSE FORMAT

You MUST respond in exactly this format:

VERDICT: [APPROVED or REJECTED]
CONFIDENCE: [HIGH, MEDIUM, or LOW]
SUMMARY: [One sentence summary of your decision]
DETAILS: [2-3 sentences explaining your reasoning]

Example:
VERDICT: APPROVED
CONFIDENCE: HIGH
SUMMARY: The submission meets all stated requirements.
DETAILS: The code includes user authentication, analytics charts, and responsive design as requested. Dark mode is implemented via a toggle in the header. Code quality is acceptable.
".

(** Step 4 of [evaluate_and_release]: the verdict parsed from the answer
    of the judge. *)
Definition parse_verdict (ai_response : string) : string :=
  let verdict := "REJECTED" in
  let response_upper := PyStr.upper ai_response in
  if (PyStr.contains "VERDICT: APPROVED" response_upper
      || PyStr.contains "VERDICT:APPROVED" response_upper)%bool
  then "APPROVED"
  else if (PyStr.contains "VERDICT: REJECTED" response_upper
           || PyStr.contains "VERDICT:REJECTED" response_upper)%bool
  then "REJECTED"
  else verdict.

Definition evaluate_and_release (gl : Env) : M value :=
  st <- attr status ;;
  assert (st =? "submitted")%string "No submission to evaluate" ;;
  url <- attr submission_url ;;
  match webpage gl url with
  | inr e =>
      setattr (set_evaluation_result
                 ("REJECTED: Could not access submission URL. Error: " ++ e)) ;;
      c <- attr client ;;
      amt <- attr payment_amount ;;
      gl_transfer gl c amt ;;
      setattr (set_status "refunded") ;;
      ret (VDict [("verdict", "REJECTED"); ("reason", "URL inaccessible")])
  | inl submission_content =>
      j <- attr (fun j => j) ;;
      ai_response <- gl_call_llm gl (evaluation_prompt j submission_content) ;;
      let verdict := parse_verdict ai_response in
      setattr (set_evaluation_result ai_response) ;;
      (if (verdict =? "APPROVED")%string
       then
         f <- attr freelancer ;;
         amt <- attr payment_amount ;;
         gl_transfer gl f amt ;;
         setattr (set_status "completed")
       else
         c <- attr client ;;
         amt <- attr payment_amount ;;
         gl_transfer gl c amt ;;
         setattr (set_status "refunded")) ;;
      ret (VDict [("verdict", verdict); ("evaluation", ai_response)])
  end.

(* ================================================================= *)
(** ** Safety mechanisms *)

Definition cancel_job (gl : Env) : M value :=
  st <- attr status ;;
  assert (st =? "open")%string "Can only cancel open jobs" ;;
  c <- attr client ;;
  assert (message_sender gl =? c)%string "Only client can cancel" ;;
  amt <- attr payment_amount ;;
  gl_transfer gl c amt ;;
  setattr (set_status "refunded") ;;
  ret VNone.

Definition claim_deadline_refund (gl : Env) : M value :=
  d <- attr deadline ;;
  assert (d <? block_timestamp gl) "Deadline not yet passed" ;;
  st <- attr status ;;
  assert ((st =? "open")%string || (st =? "in_progress")%string)
         "Invalid status for deadline refund" ;;
  c <- attr client ;;
  assert (message_sender gl =? c)%string "Only client can claim deadline refund" ;;
  amt <- attr payment_amount ;;
  gl_transfer gl c amt ;;
  setattr (set_status "refunded") ;;
  ret VNone.

Definition withdraw_as_freelancer (gl : Env) : M value :=
  st <- attr status ;;
  assert (st =? "in_progress")%string "Can only withdraw from in-progress jobs" ;;
  f <- attr freelancer ;;
  assert (message_sender gl =? f)%string "Only assigned freelancer can withdraw" ;;
  setattr (set_freelancer no_address) ;;
  setattr (set_status "open") ;;
  ret VNone.

(* ================================================================= *)
(** ** View methods *)

Definition get_status (j : Job) : string := status j.

Definition get_evaluation (j : Job) : string := evaluation_result j.

Definition is_deadline_passed (gl : Env) (j : Job) : bool :=
  deadline j <? block_timestamp gl.

Definition time_remaining (gl : Env) (j : Job) : Z :=
  if deadline j <=? block_timestamp gl then 0
  else deadline j - block_timestamp gl.

(* ================================================================= *)
(** ** Transactions *)

(** The public write methods, as calls a transaction can make. *)
Inductive Call : Type :=
| AcceptJob
| SubmitWork (url : string)
| EvaluateAndRelease
| CancelJob
| ClaimDeadlineRefund
| WithdrawAsFreelancer.

Definition call (gl : Env) (c : Call) : M value :=
  match c with
  | AcceptJob => accept_job gl
  | SubmitWork url => submit_work gl url
  | EvaluateAndRelease => evaluate_and_release gl
  | CancelJob => cancel_job gl
  | ClaimDeadlineRefund => claim_deadline_refund gl
  | WithdrawAsFreelancer => withdraw_as_freelancer gl
  end.

(** The world after a transaction, whether it returned or raised. *)
Definition step (w : World) (tx : Env * Call) : World :=
  snd (call (fst tx) (snd tx) w).

(** The world after a sequence of transactions. *)
Definition run (w : World) (txs : list (Env * Call)) : World :=
  fold_left step txs w.

(* ================================================================= *)
(** ** Vocabulary of the properties *)

(** The two final statuses. *)
Definition terminal (j : Job) : Prop :=
  status j = "completed" \/ status j = "refunded".

(** The gateway calls that moved funds. *)
Definition disbursed (w : World) : list Transfer :=
  filter carried_out (transfers w).

(** The upper-cased answer holds one of the two approval markers that
    [parse_verdict] looks for. *)
Definition has_approval_marker (ai_response : string) : bool :=
  (PyStr.contains "VERDICT: APPROVED" (PyStr.upper ai_response)
   || PyStr.contains "VERDICT:APPROVED" (PyStr.upper ai_response))%bool.

(** The upper-cased answer holds one of the two rejection markers. *)
Definition has_rejection_marker (ai_response : string) : bool :=
  (PyStr.contains "VERDICT: REJECTED" (PyStr.upper ai_response)
   || PyStr.contains "VERDICT:REJECTED" (PyStr.upper ai_response))%bool.

(** The verdict of the marker that starts earliest in an upper-cased
    text, if it holds a marker at all. *)
Fixpoint first_marker (response_upper : string) : option string :=
  if (String.prefix "VERDICT: APPROVED" response_upper
      || String.prefix "VERDICT:APPROVED" response_upper)%bool
  then Some "APPROVED"
  else if (String.prefix "VERDICT: REJECTED" response_upper
           || String.prefix "VERDICT:REJECTED" response_upper)%bool
  then Some "REJECTED"
  else match response_upper with
       | EmptyString => None
       | String _ rest => first_marker rest
       end.

(** Verdict extraction as the specification words it: the marker that
    occurs first in the text wins, no marker means rejection. *)
Definition first_match_wins (ai_response : string) : string :=
  match first_marker (PyStr.upper ai_response) with
  | Some verdict => verdict
  | None => "REJECTED"
  end.

(** Modelled from the spec: the verdict equivalence rule that the
    agreement mechanism applies to two judgment texts.  The contract only
    hands the rule over as prose to [gl.equivalence_principle]; the rule
    itself is the one of section 4.3 of the specification: extract each
    verdict as [evaluate_and_release] does and compare the verdicts. *)
Definition equivalent (a b : string) : bool :=
  (parse_verdict a =? parse_verdict b)%string.

(** What a step of the lifecycle does to the gateway log and the status:
    no gateway call; a gateway call that raised; or a gateway call that
    moved the payment and closed the job. *)
Inductive StepShape (w : World) (r : Outcome value * World) : Prop :=
| Quiet :
    transfers (snd r) = transfers w ->
    (terminal (self w) -> r = (fst r, w) /\ exists msg, fst r = Raise (AssertionError msg)) ->
    (~ terminal (self w) -> ~ terminal (self (snd r))) ->
    StepShape w r
| Refused (to : Address) :
    ~ terminal (self w) ->
    transfers (snd r) = (transfers w ++ [mkTransfer to (payment_amount (self w)) false])%list ->
    fst r = Raise (TransferError to (payment_amount (self w))) ->
    status (self (snd r)) = status (self w) ->
    StepShape w r
| Paid (to : Address) (v : value) :
    ~ terminal (self w) ->
    transfers (snd r) = (transfers w ++ [mkTransfer to (payment_amount (self w)) true])%list ->
    fst r = Return v ->
    terminal (self (snd r)) ->
    to = client (self w) \/ to = freelancer (self w) ->
    StepShape w r.

(** The invariant of the gateway log: before the job is closed every
    gateway call raised; once it is closed the last call, and only the
    last, moved the payment. *)
Definition LedgerInv (j : Job) (w : World) : Prop :=
  payment_amount (self w) = payment_amount j /\
  ((~ terminal (self w) /\ Forall (fun t => carried_out t = false) (transfers w))
   \/ (terminal (self w) /\
       exists pre t, transfers w = (pre ++ [t])%list /\
                     Forall (fun t => carried_out t = false) pre /\
                     carried_out t = true /\
                     amount t = payment_amount j)).

(** The invariant that ties [freelancer] to [status]. *)
Definition FreelancerInv (j : Job) : Prop :=
  (status j = "open" /\ freelancer j = no_address)
  \/ ((status j = "in_progress" \/ status j = "submitted" \/ status j = "completed")
      /\ freelancer j <> no_address)
  \/ status j = "refunded".

(** Every transaction of the list is sent from a real account, not from
    the empty address. *)
Definition real_senders (txs : list (Env * Call)) : Prop :=
  Forall (fun tx => message_sender (fst tx) <> no_address) txs.

(* ================================================================= *)
(** ** Example data: the deployment of the test suite *)

Definition example_env (sender : Address) (now : Z) (page : string + string)
           (answer : string) (pays : bool) : Env :=
  {| message_sender := sender;
     message_value := 1000000;
     block_timestamp := now;
     webpage := fun _ => page;
     llm := fun _ => answer;
     gateway := fun _ _ => pays |}.

Definition example_deploy : Env :=
  example_env "0xC11E" 1000 (inl "index.html") "VERDICT: APPROVED" true.

Definition example_job : Job :=
  {| client := "0xC11E";
     freelancer := no_address;
     job_title := "Build a Landing Page";
     requirements := "Create a responsive landing page with hero section, features grid, and contact form";
     payment_amount := 1000000;
     submission_url := EmptyString;
     status := "open";
     created_at := 1000;
     deadline := 260200;
     evaluation_result := EmptyString |}.

(** The example job after [accept_job] by [0xF1]. *)
Definition example_accepted : Job :=
  set_status "in_progress" (set_freelancer "0xF1" example_job).

(** The example job after [submit_work] by [0xF1]. *)
Definition example_submitted : Job :=
  set_status "submitted"
    (set_submission_url "https://github.com/example/landing-page" example_accepted).

(** The answer [verd?ct: approved] written with the dotless i, U+0131,
    in place of the i. *)
Definition dotless_answer : string :=
  "verd" ++ PyStr.utf8 305 ++ "ct: approved".

(** Three code points in six bytes: e with acute accent (U+00E9), [a],
    and the euro sign (U+20AC). *)
Definition accented_text : string :=
  PyStr.utf8 233 ++ "a" ++ PyStr.utf8 8364.

(** Accept, submit, evaluate with an approving judge. *)
Definition example_happy_path : list (Env * Call) :=
  [ (example_env "0xF1" 2000 (inl "index.html") "VERDICT: APPROVED" true, AcceptJob);
    (example_env "0xF1" 3000 (inl "index.html") "VERDICT: APPROVED" true,
     SubmitWork "https://github.com/example/landing-page");
    (example_env "0xA7" 4000 (inl "index.html") "VERDICT: APPROVED" true,
     EvaluateAndRelease) ].

(* ================================================================= *)
(** ** The snapshot view *)

(** [str(n)] of an integer: its decimal digits, with a minus sign when it
    is negative. *)
Definition str_int (n : Z) : string := NilZero.string_of_int (Z.to_int n).

(** [get_job_details]: the dict it returns, keys in the order of the
    source.  An address is modelled by its text, which is what [str] of it
    gives. *)
Definition get_job_details (j : Job) : value :=
  VDict [ ("title", job_title j);
          ("requirements", requirements j);
          ("payment", str_int (payment_amount j));
          ("client", client j);
          ("freelancer", freelancer j);
          ("status", status j);
          ("submission_url", submission_url j);
          ("deadline", str_int (deadline j));
          ("created_at", str_int (created_at j));
          ("evaluation_result", evaluation_result j) ].

(* ================================================================= *)
(** ** Vocabulary of the lifecycle properties *)

(** The five values that the contract ever stores in [status]. *)
Definition known_status (s : string) : Prop :=
  s = "open" \/ s = "in_progress" \/ s = "submitted"
  \/ s = "completed" \/ s = "refunded".

(** The edges of the lifecycle: from which status to which. *)
Definition transition (s s' : string) : Prop :=
  (s = "open" /\ s' = "in_progress")
  \/ (s = "in_progress" /\ s' = "submitted")
  \/ (s = "in_progress" /\ s' = "open")
  \/ (s = "open" /\ s' = "refunded")
  \/ (s = "in_progress" /\ s' = "refunded")
  \/ (s = "submitted" /\ s' = "completed")
  \/ (s = "submitted" /\ s' = "refunded").

(** What must hold of the sender, the clock and the job for a call to
    return. *)
Definition authorised (gl : Env) (c : Call) (j : Job) : Prop :=
  match c with
  | AcceptJob => status j = "open" /\ message_sender gl <> client j
  | SubmitWork url =>
      status j = "in_progress" /\ message_sender gl = freelancer j
      /\ url <> EmptyString
  | EvaluateAndRelease => status j = "submitted"
  | CancelJob => status j = "open" /\ message_sender gl = client j
  | ClaimDeadlineRefund =>
      deadline j < block_timestamp gl
      /\ (status j = "open" \/ status j = "in_progress")
      /\ message_sender gl = client j
  | WithdrawAsFreelancer =>
      status j = "in_progress" /\ message_sender gl = freelancer j
  end.

(** Who holds the payment: the contract until the job is closed, then the
    freelancer of a completed job or the client of a refunded one. *)
Definition PayeeInv (w : World) : Prop :=
  (~ terminal (self w) /\ disbursed w = [])
  \/ (status (self w) = "completed"
      /\ disbursed w = [mkTransfer (freelancer (self w)) (payment_amount (self w)) true])
  \/ (status (self w) = "refunded"
      /\ disbursed w = [mkTransfer (client (self w)) (payment_amount (self w)) true]).

(** What the storage and the judge log hold at each stage of the
    lifecycle. *)
Definition AuditInv (w : World) : Prop :=
  ((status (self w) = "open" \/ status (self w) = "in_progress")
   /\ submission_url (self w) = EmptyString
   /\ evaluation_result (self w) = EmptyString
   /\ prompts w = [])
  \/ (status (self w) = "submitted" /\ submission_url (self w) <> EmptyString)
  \/ (status (self w) = "completed"
      /\ submission_url (self w) <> EmptyString
      /\ parse_verdict (evaluation_result (self w)) = "APPROVED"
      /\ prompts w <> [])
  \/ status (self w) = "refunded".

(** The call that closes a job that is not closed yet: the client cancels
    an open job, claims the refund of one in progress, and anyone has a
    submitted one evaluated. *)
Definition closing_call (j : Job) : Call :=
  if (status j =? "open")%string then CancelJob
  else if (status j =? "in_progress")%string then ClaimDeadlineRefund
  else EvaluateAndRelease.

(* ================================================================= *)
(** ** Equations of the monad and symbolic execution *)

Section MonadEquations.
Context {A B : Type}.

Lemma bind_ret (a : A) (k : A -> M B) (w : World) :
  bind (ret a) k w = k a w.
Proof. reflexivity. Qed.

Lemma bind_attr (field : Job -> A) (k : A -> M B) (w : World) :
  bind (attr field) k w = k (field (self w)) w.
Proof. reflexivity. Qed.

Lemma bind_assert (cond : bool) (msg : string) (k : unit -> M B) (w : World) :
  bind (assert cond msg) k w =
  if cond then k tt w else (Raise (AssertionError msg), w).
Proof. destruct cond; reflexivity. Qed.

Lemma bind_setattr (update : Job -> Job) (k : unit -> M B) (w : World) :
  bind (setattr update) k w =
  k tt (mkWorld (update (self w)) (transfers w) (prompts w)).
Proof. reflexivity. Qed.

Lemma bind_transfer (gl : Env) (to : Address) (amt : Z) (k : unit -> M B)
      (w : World) :
  bind (gl_transfer gl to amt) k w =
  if gateway gl to amt
  then k tt (mkWorld (self w) (transfers w ++ [mkTransfer to amt true]) (prompts w))
  else (Raise (TransferError to amt),
        mkWorld (self w) (transfers w ++ [mkTransfer to amt false]) (prompts w)).
Proof. unfold bind, gl_transfer. destruct (gateway gl to amt); reflexivity. Qed.

Lemma bind_call_llm (gl : Env) (prompt : string) (k : string -> M B)
      (w : World) :
  bind (gl_call_llm gl prompt) k w =
  k (llm gl prompt) (mkWorld (self w) (transfers w) (prompts w ++ [prompt])).
Proof. reflexivity. Qed.

End MonadEquations.

Lemma bind_assoc {A B C : Type} (m : M A) (k : A -> M B) (h : B -> M C)
      (w : World) :
  bind (bind m k) h w = bind m (fun a => bind (k a) h) w.
Proof. unfold bind. destruct (m w) as [[a | e] w']; reflexivity. Qed.

Ltac unfold_methods :=
  unfold call, accept_job, submit_work, evaluate_and_release, cancel_job,
    claim_deadline_refund, withdraw_as_freelancer.

Ltac exec_step :=
  first [ rewrite bind_attr | rewrite bind_assert | rewrite bind_setattr
        | rewrite bind_transfer | rewrite bind_call_llm | rewrite bind_ret
        | rewrite bind_assoc ].

(** Runs a method symbolically up to its next branch. *)
Ltac exec :=
  unfold_methods; repeat (exec_step; cbv beta);
  unfold ret; cbn [self transfers prompts fst snd].

(** Splits on the next branch of a method under execution. *)
Ltac branch :=
  match goal with
  | |- context [match webpage ?gl ?u with _ => _ end] =>
      destruct (webpage gl u) eqn:?
  | |- context [if ?b then _ else _] => destruct b eqn:?
  end.

(* ================================================================= *)
(** ** Code points and upper-casing of texts *)

Lemma append_assoc (a b c : string) : (a ++ b) ++ c = a ++ (b ++ c).
Proof. induction a as [| x a IH]; cbn; [reflexivity | now rewrite IH]. Qed.

Lemma append_nil_r (a : string) : a ++ EmptyString = a.
Proof. induction a as [| x a IH]; cbn; [reflexivity | now rewrite IH]. Qed.

Lemma join_app (l l' : list string) :
  PyStr.join (l ++ l') = PyStr.join l ++ PyStr.join l'.
Proof.
  induction l as [| c l IH]; cbn; [reflexivity |].
  now rewrite IH, append_assoc.
Qed.

Lemma is_ascii_not_cont (b : ascii) :
  PyStr.is_ascii b = true -> PyStr.is_cont b = false.
Proof. destruct b as [? ? ? ? ? ? [] []]; cbn; congruence. Qed.

Lemma upper_char_high (b : ascii) :
  PyStr.is_ascii b = false -> PyStr.upper_char b = b.
Proof. destruct b as [[] [] [] [] [] [] [] []]; cbn; intros H; congruence || reflexivity. Qed.

Lemma upper_char_is_ascii (b : ascii) :
  PyStr.is_ascii (PyStr.upper_char b) = PyStr.is_ascii b.
Proof. destruct b as [[] [] [] [] [] [] [] []]; reflexivity. Qed.

Lemma upper_char_is_cont (b : ascii) :
  PyStr.is_cont (PyStr.upper_char b) = PyStr.is_cont b.
Proof. destruct b as [[] [] [] [] [] [] [] []]; reflexivity. Qed.

Lemma chunks_cons (b : ascii) (rest : string) :
  PyStr.chunks (String b rest) =
  if PyStr.starts_cont rest
  then match PyStr.chunks rest with
       | c :: cs => String b c :: cs
       | [] => [String b EmptyString]
       end
  else String b EmptyString :: PyStr.chunks rest.
Proof. reflexivity. Qed.

(** The first code point of a text starts with its first byte, so a text
    that is not empty has a code point. *)
Lemma chunks_head (b : ascii) (rest : string) :
  exists t cs, PyStr.chunks (String b rest) = String b t :: cs.
Proof.
  rewrite chunks_cons. destruct (PyStr.starts_cont rest); [| eauto].
  destruct (PyStr.chunks rest); eauto.
Qed.

Lemma join_chunks (s : string) : PyStr.join (PyStr.chunks s) = s.
Proof.
  induction s as [| b rest IH]; [reflexivity |].
  rewrite chunks_cons. destruct (PyStr.starts_cont rest).
  - destruct (PyStr.chunks rest) as [| c cs].
    + cbn in *. now rewrite <- IH.
    + cbn in *. now rewrite IH.
  - cbn. now rewrite IH.
Qed.

(** The code points of two texts put together are those of the first and
    then those of the second, when the second does not start inside a code
    point. *)
Lemma chunks_app (a b : string) :
  PyStr.starts_cont b = false ->
  PyStr.chunks (a ++ b) = (PyStr.chunks a ++ PyStr.chunks b)%list.
Proof.
  intros Hb. induction a as [| x a IH]; [reflexivity |].
  change (String x a ++ b) with (String x (a ++ b)).
  rewrite !chunks_cons, IH.
  assert (Hs : PyStr.starts_cont (a ++ b) = PyStr.starts_cont a)
    by (destruct a; [exact Hb | reflexivity]).
  rewrite Hs. destruct (PyStr.starts_cont a) eqn:Ha; [| reflexivity].
  destruct a as [| y a]; [discriminate |].
  destruct (chunks_head y a) as (t & cs & ->). reflexivity.
Qed.

Lemma upper_app_clean (a b : string) :
  PyStr.starts_cont b = false ->
  PyStr.upper (a ++ b) = PyStr.upper a ++ PyStr.upper b.
Proof.
  intros Hb. unfold PyStr.upper.
  now rewrite (chunks_app a b Hb), map_app, join_app.
Qed.

(** The table of [str.upper], checked entry by entry. *)
Lemma upper_table_ok : forallb PyStr.table_entry_ok PyStr.upper_table = true.
Proof. vm_compute. reflexivity. Qed.

Lemma assoc_in (c v : string) (t : list (string * string)) :
  PyStr.assoc c t = Some v -> In (c, v) t.
Proof.
  induction t as [| [k u] t IH]; cbn; [discriminate |].
  destruct (String.eqb_spec k c) as [-> | _].
  - intros H. injection H as ->. now left.
  - intros H. right. now apply IH.
Qed.

Lemma assoc_ok (c v : string) :
  PyStr.assoc c PyStr.upper_table = Some v -> PyStr.table_entry_ok (c, v) = true.
Proof.
  intros H. apply assoc_in in H.
  exact (proj1 (forallb_forall _ _) upper_table_ok _ H).
Qed.

(** No code point that starts with a byte below 128 or with a
    continuation byte is in the table. *)
Lemma assoc_none (h : ascii) (t : string) :
  PyStr.is_ascii h = true \/ PyStr.is_cont h = true ->
  PyStr.assoc (String h t) PyStr.upper_table = None.
Proof.
  intros Hh. destruct (PyStr.assoc _ _) as [v |] eqn:H; [| reflexivity].
  apply assoc_ok in H. unfold PyStr.table_entry_ok in H. cbn [fst snd] in H.
  destruct t as [| x t]; [discriminate |].
  destruct Hh as [Hh | Hh]; rewrite Hh in H; cbn in H;
    rewrite ?andb_false_r in H; discriminate.
Qed.

Lemma upper_chunk_low (h : ascii) (t : string) :
  PyStr.is_ascii h = true \/ PyStr.is_cont h = true ->
  PyStr.upper_chunk (String h t) = String (PyStr.upper_char h) t.
Proof.
  intros Hh. unfold PyStr.upper_chunk. destruct t as [| x t]; [reflexivity |].
  now rewrite (assoc_none h (String x t) Hh).
Qed.

Lemma upper_chunk_cont (h : ascii) (t : string) :
  PyStr.is_cont h = true -> PyStr.upper_chunk (String h t) = String h t.
Proof.
  intros Hh. rewrite upper_chunk_low by now right.
  rewrite upper_char_high; [reflexivity |].
  destruct h as [? ? ? ? ? ? [] []]; cbn in *; congruence.
Qed.

(** Upper-casing leaves a code point its kind of first byte, and makes
    no code point empty. *)
Lemma upper_chunk_starts (h : ascii) (t : string) :
  exists h' t', PyStr.upper_chunk (String h t) = String h' t'
                /\ PyStr.is_cont h' = PyStr.is_cont h.
Proof.
  unfold PyStr.upper_chunk. destruct t as [| x t].
  - eexists _, _. split; [reflexivity | apply upper_char_is_cont].
  - destruct (PyStr.assoc _ _) as [v |] eqn:H.
    + apply assoc_ok in H. unfold PyStr.table_entry_ok in H. cbn [fst snd] in H.
      destruct v as [| v0 v]; [rewrite ?andb_false_r in H; discriminate |].
      apply andb_prop in H as [H _]. apply andb_prop in H as [H _].
      apply andb_prop in H as [Hk Hv]. apply andb_prop in Hk as [_ Hk].
      eexists _, _. split; [reflexivity |].
      apply negb_true_iff in Hk, Hv. congruence.
    + eexists _, _. split; [reflexivity | apply upper_char_is_cont].
Qed.

(** A byte below 128 is upper-cased on its own, whatever follows. *)
Lemma upper_cons_ascii (x : ascii) (b : string) :
  PyStr.is_ascii x = true ->
  PyStr.upper (String x b) = String (PyStr.upper_char x) (PyStr.upper b).
Proof.
  intros Hx. unfold PyStr.upper. rewrite chunks_cons.
  destruct (PyStr.starts_cont b) eqn:Hb.
  - destruct b as [| y b]; [discriminate |]. cbn in Hb.
    destruct (chunks_head y b) as (t & cs & ->).
    cbn [map PyStr.join].
    rewrite (upper_chunk_low x) by now left.
    rewrite (upper_chunk_cont y t Hb). reflexivity.
  - cbn [map PyStr.join]. reflexivity.
Qed.

Lemma ends_ascii_snoc (a : string) :
  a <> EmptyString -> PyStr.ends_ascii a = true ->
  exists a0 x, a = a0 ++ String x EmptyString /\ PyStr.is_ascii x = true.
Proof.
  induction a as [| y a IH]; [contradiction |]. intros _ H.
  destruct a as [| z a].
  - exists EmptyString, y. split; [reflexivity | exact H].
  - destruct IH as (a0 & x & Heq & Hx); [discriminate | exact H |].
    exists (String y a0), x. split; [| exact Hx]. cbn. now rewrite <- Heq.
Qed.

(** Upper-casing goes through a join after a byte below 128. *)
Lemma upper_app_ascii (a b : string) :
  PyStr.ends_ascii a = true ->
  PyStr.upper (a ++ b) = PyStr.upper a ++ PyStr.upper b.
Proof.
  intros Ha. destruct a as [| y a]; [reflexivity |].
  destruct (ends_ascii_snoc (String y a)) as (a0 & x & -> & Hx);
    [discriminate | exact Ha |].
  rewrite append_assoc. cbn [append].
  rewrite !upper_app_clean
    by (cbn; now apply is_ascii_not_cont).
  rewrite upper_cons_ascii by exact Hx.
  rewrite (upper_cons_ascii x EmptyString) by exact Hx.
  now rewrite append_assoc.
Qed.

Lemma chunks_single (h : ascii) (t : string) :
  PyStr.all_cont t = true -> PyStr.chunks (String h t) = [String h t].
Proof.
  revert h. induction t as [| y t IH]; intros h H; [reflexivity |].
  cbn in H. apply andb_prop in H as [Hy Ht].
  rewrite chunks_cons. cbn [PyStr.starts_cont]. rewrite Hy.
  now rewrite (IH y Ht).
Qed.

Lemma chunks_well_chunked (s : string) : PyStr.well_chunked (PyStr.chunks s).
Proof.
  unfold PyStr.well_chunked.
  induction s as [| b rest [IH1 IH2]]; [split; constructor |].
  rewrite chunks_cons. destruct (PyStr.starts_cont rest) eqn:Hs.
  - destruct (PyStr.chunks rest) as [| c cs] eqn:E; cbn [tl] in *.
    + split; repeat constructor.
    + inversion IH1 as [| ? ? Hc Hcs]; subst. split; [| exact IH2].
      constructor; [| exact Hcs].
      destruct rest as [| y rest]; [discriminate |].
      destruct (chunks_head y rest) as (t & cs' & Heq).
      rewrite Heq in E. injection E as <- _.
      cbn in Hs, Hc |- *. now rewrite Hs, Hc.
  - cbn [tl]. split; [constructor; [reflexivity | exact IH1] |].
    destruct rest as [| y rest]; [constructor |].
    destruct (chunks_head y rest) as (t & cs & Heq).
    rewrite Heq in *. cbn [tl] in IH2. constructor; [exact Hs | exact IH2].
Qed.

Lemma join_clean (l : list string) :
  Forall PyStr.chunk_ok l ->
  Forall (fun c => PyStr.starts_cont c = false) l ->
  PyStr.starts_cont (PyStr.join l) = false.
Proof.
  intros Hok Hcl. destruct l as [| c l]; [reflexivity |].
  inversion Hok; inversion Hcl; subst.
  destruct c as [| h t]; [contradiction |]. assumption.
Qed.

(** Cutting a text into its code points and joining them again loses
    nothing, in both directions. *)
Lemma chunks_join (l : list string) :
  PyStr.well_chunked l -> PyStr.chunks (PyStr.join l) = l.
Proof.
  intros [Hok Hcl]. induction l as [| c l IH]; [reflexivity |].
  inversion Hok as [| ? ? Hc Hl]; subst. cbn [tl] in Hcl. cbn [PyStr.join].
  rewrite chunks_app by now apply join_clean.
  rewrite IH; [| exact Hl | destruct l; [constructor | now inversion Hcl]].
  destruct c as [| h t]; [contradiction |].
  now rewrite (chunks_single h t Hc).
Qed.

Lemma forall_firstn {A : Type} (P : A -> Prop) (n : nat) (l : list A) :
  Forall P l -> Forall P (firstn n l).
Proof.
  revert l. induction n as [| n IH]; intros l H; [constructor |].
  destruct H as [| a l Ha Hl]; [constructor |].
  cbn. constructor; [exact Ha | now apply IH].
Qed.

Lemma well_chunked_firstn (n : nat) (l : list string) :
  PyStr.well_chunked l -> PyStr.well_chunked (firstn n l).
Proof.
  intros [Hok Hcl]. split; [now apply forall_firstn |].
  destruct n as [| n]; [constructor |].
  destruct l as [| c l]; [constructor |]. cbn [firstn tl] in *.
  now apply forall_firstn.
Qed.

Lemma len_nonneg (s : string) : 0 <= PyStr.len s.
Proof. unfold PyStr.len. lia. Qed.

Lemma len_app_clean (a b : string) :
  PyStr.starts_cont b = false ->
  PyStr.len (a ++ b) = PyStr.len a + PyStr.len b.
Proof.
  intros Hb. unfold PyStr.len. rewrite (chunks_app a b Hb), length_app. lia.
Qed.

(** A slice has the code points asked for, if the text has that many. *)
Lemma len_slice_to (n : nat) (s : string) :
  PyStr.len (PyStr.slice_to n s) = Z.min (Z.of_nat n) (PyStr.len s).
Proof.
  unfold PyStr.len, PyStr.slice_to.
  rewrite chunks_join by (apply well_chunked_firstn, chunks_well_chunked).
  rewrite length_firstn. lia.
Qed.

Lemma starts_cont_app (a b : string) :
  PyStr.starts_cont a = false -> PyStr.starts_cont b = false ->
  PyStr.starts_cont (a ++ b) = false.
Proof. intros Ha Hb. destruct a; assumption. Qed.

Lemma slice_to_starts (n : nat) (s : string) :
  PyStr.starts_cont s = false -> PyStr.starts_cont (PyStr.slice_to n s) = false.
Proof.
  intros Hs. unfold PyStr.slice_to. destruct n as [| n]; [reflexivity |].
  destruct s as [| b rest]; [reflexivity |].
  destruct (chunks_head b rest) as (t & cs & ->). exact Hs.
Qed.

(** The UTF-8 bytes of a Python [str] do not start inside a code point. *)
Lemma is_text_starts (s : string) :
  PyStr.is_text s = true -> PyStr.starts_cont s = false.
Proof.
  unfold PyStr.is_text. destruct s as [| b rest]; [reflexivity |].
  destruct (chunks_head b rest) as (t & cs & ->). cbn [forallb].
  intros H. apply andb_prop in H as [H _].
  destruct b as [[] [] [] [] [] [] [] []];
    destruct t as [| ? [| ? [| ? [| ? ?]]]]; cbn in *; congruence.
Qed.

Lemma upper_char_idempotent (c : ascii) :
  PyStr.upper_char (PyStr.upper_char c) = PyStr.upper_char c.
Proof.
  destruct c as [[] [] [] [] [] [] [] []]; reflexivity.
Qed.

Lemma upper_of_chunk (h : ascii) (t : string) :
  PyStr.all_cont t = true ->
  PyStr.upper (String h t) = PyStr.upper_chunk (String h t).
Proof.
  intros Ht. unfold PyStr.upper. rewrite (chunks_single h t Ht).
  cbn [map PyStr.join]. apply append_nil_r.
Qed.

(** Upper-casing an upper-cased code point changes nothing. *)
Lemma upper_upper_chunk (c : string) :
  PyStr.chunk_ok c -> PyStr.upper (PyStr.upper_chunk c) = PyStr.upper_chunk c.
Proof.
  destruct c as [| h t]; [contradiction |]. cbn [PyStr.chunk_ok]. intros Ht.
  destruct t as [| x t].
  - cbn [PyStr.upper_chunk]. rewrite upper_of_chunk by reflexivity.
    cbn [PyStr.upper_chunk]. now rewrite upper_char_idempotent.
  - unfold PyStr.upper_chunk.
    destruct (PyStr.assoc _ _) as [v |] eqn:H.
    + apply assoc_ok in H. unfold PyStr.table_entry_ok in H. cbn [fst snd] in H.
      apply andb_prop in H as [H _]. apply andb_prop in H as [_ H].
      now apply String.eqb_eq.
    + rewrite upper_of_chunk by exact Ht.
      destruct (PyStr.is_ascii h) eqn:Hh.
      * rewrite upper_chunk_low
          by (left; now rewrite upper_char_is_ascii).
        now rewrite upper_char_idempotent.
      * rewrite (upper_char_high h Hh). unfold PyStr.upper_chunk. rewrite H.
        now rewrite (upper_char_high h Hh).
Qed.

Lemma upper_chunk_clean (c : string) :
  PyStr.chunk_ok c ->
  PyStr.starts_cont (PyStr.upper_chunk c) = PyStr.starts_cont c.
Proof.
  destruct c as [| h t]; [contradiction |]. intros _.
  destruct (upper_chunk_starts h t) as (h' & t' & -> & Hh). exact Hh.
Qed.

Lemma join_upper_clean (l : list string) :
  Forall PyStr.chunk_ok l ->
  Forall (fun c => PyStr.starts_cont c = false) l ->
  PyStr.starts_cont (PyStr.join (map PyStr.upper_chunk l)) = false.
Proof.
  intros Hok Hcl. destruct l as [| c l]; [reflexivity |].
  inversion Hok; inversion Hcl; subst. cbn [map PyStr.join].
  destruct c as [| h t]; [contradiction |].
  destruct (upper_chunk_starts h t) as (h' & t' & -> & Hh).
  cbn in *. congruence.
Qed.

Lemma upper_join_upper (l : list string) :
  Forall PyStr.chunk_ok l ->
  Forall (fun c => PyStr.starts_cont c = false) (tl l) ->
  PyStr.upper (PyStr.join (map PyStr.upper_chunk l)) =
  PyStr.join (map PyStr.upper_chunk l).
Proof.
  intros Hok Hcl. induction l as [| c l IH]; [reflexivity |].
  inversion Hok as [| ? ? Hc Hl]; subst. cbn [tl] in Hcl. cbn [map PyStr.join].
  rewrite upper_app_clean by now apply join_upper_clean.
  rewrite (upper_upper_chunk c Hc). f_equal.
  apply IH; [exact Hl |]. destruct l; [constructor | now inversion Hcl].
Qed.

(** [s.upper().upper() == s.upper()] *)
Lemma upper_idempotent (s : string) : PyStr.upper (PyStr.upper s) = PyStr.upper s.
Proof.
  unfold PyStr.upper at 2 3.
  destruct (chunks_well_chunked s) as [Hok Hcl].
  now apply upper_join_upper.
Qed.

(** Upper-casing keeps a text empty or not, and starting inside a code
    point or not. *)
Lemma upper_starts (s : string) :
  PyStr.starts_cont (PyStr.upper s) = PyStr.starts_cont s
  /\ (PyStr.upper s = EmptyString -> s = EmptyString).
Proof.
  destruct s as [| b rest]; [split; reflexivity |].
  unfold PyStr.upper. destruct (chunks_head b rest) as (t & cs & ->).
  cbn [map PyStr.join].
  destruct (upper_chunk_starts b t) as (h' & t' & -> & Hh).
  split; [exact Hh | discriminate].
Qed.

Lemma last_byte_app (a b : string) :
  b <> EmptyString -> PyStr.last_byte (a ++ b) = PyStr.last_byte b.
Proof.
  intros Hb. induction a as [| x a IH]; [reflexivity |].
  cbn [append]. cbn [PyStr.last_byte].
  destruct (a ++ b) eqn:E; [| exact IH].
  destruct a; [contradiction | discriminate].
Qed.

Lemma ends_ascii_app (a b : string) :
  b <> EmptyString -> PyStr.ends_ascii (a ++ b) = PyStr.ends_ascii b.
Proof.
  intros Hb. induction a as [| x a IH]; [reflexivity |].
  cbn [append]. cbn [PyStr.ends_ascii].
  destruct (a ++ b) eqn:E; [| exact IH].
  destruct a; [contradiction | discriminate].
Qed.

Lemma last_byte_all_cont (t : string) (b : ascii) :
  PyStr.all_cont t = true -> PyStr.last_byte t = Some b -> PyStr.is_cont b = true.
Proof.
  induction t as [| x t IH]; [discriminate |]. cbn [PyStr.all_cont].
  intros H. apply andb_prop in H as [Hx Ht]. cbn [PyStr.last_byte].
  destruct t; [intros E; now injection E as <- | now apply IH].
Qed.

Lemma upper_chunk_last_D (c : string) :
  PyStr.chunk_ok c ->
  PyStr.last_byte (PyStr.upper_chunk c) = Some "D"%char ->
  PyStr.ends_ascii c = true.
Proof.
  destruct c as [| h t]; [contradiction |]. cbn [PyStr.chunk_ok]. intros Ht.
  destruct t as [| x t].
  - cbn. intros H. injection H as H.
    rewrite <- (upper_char_is_ascii h), H. reflexivity.
  - unfold PyStr.upper_chunk. destruct (PyStr.assoc _ _) as [v |] eqn:H.
    + apply assoc_ok in H. unfold PyStr.table_entry_ok in H. cbn [fst snd] in H.
      apply andb_prop in H as [_ H]. intros E. rewrite E in H. discriminate.
    + change (PyStr.last_byte (String (PyStr.upper_char h) (String x t)))
        with (PyStr.last_byte (String x t)).
      intros E. apply (last_byte_all_cont _ _ Ht) in E. discriminate.
Qed.

Lemma join_upper_nonempty (l : list string) :
  Forall PyStr.chunk_ok l -> l <> [] ->
  PyStr.join (map PyStr.upper_chunk l) <> EmptyString.
Proof.
  intros Hok Hl. destruct l as [| c l]; [contradiction |].
  inversion Hok; subst. destruct c as [| h t]; [contradiction |].
  cbn [map PyStr.join].
  destruct (upper_chunk_starts h t) as (h' & t' & -> & _). discriminate.
Qed.

Lemma join_nonempty (l : list string) :
  Forall PyStr.chunk_ok l -> l <> [] -> PyStr.join l <> EmptyString.
Proof.
  intros Hok Hl. destruct l as [| c l]; [contradiction |].
  inversion Hok; subst. destruct c as [| h t]; [contradiction | discriminate].
Qed.

(** A text whose upper-casing ends with the letter D ends with a byte
    below 128. *)
Lemma upper_last_D (s : string) :
  PyStr.last_byte (PyStr.upper s) = Some "D"%char -> PyStr.ends_ascii s = true.
Proof.
  rewrite <- (join_chunks s) at 2. unfold PyStr.upper.
  destruct (chunks_well_chunked s) as [Hok _].
  induction (PyStr.chunks s) as [| c l IH]; [discriminate |].
  inversion Hok as [| ? ? Hc Hl]; subst. cbn [map PyStr.join].
  destruct l as [| c' l].
  - cbn [map PyStr.join]. rewrite !append_nil_r. now apply upper_chunk_last_D.
  - rewrite last_byte_app by (apply join_upper_nonempty; [exact Hl | discriminate]).
    rewrite ends_ascii_app by (apply join_nonempty; [exact Hl | discriminate]).
    now apply IH.
Qed.

(** From here on the operations on texts are used through the lemmas
    above, not unfolded. *)
Arguments PyStr.upper : simpl never.
Arguments PyStr.slice_to : simpl never.
Arguments PyStr.len : simpl never.
Arguments PyStr.chunks : simpl never.
Arguments PyStr.upper_chunk : simpl never.

(* ================================================================= *)
(** ** Tactics for the lifecycle proofs *)

(** Turns the tests a method made on the way into equations. *)
Ltac tests :=
  repeat match goal with
         | H : (_ =? _)%string = true |- _ => apply String.eqb_eq in H
         | H : (_ =? _)%string = false |- _ => apply String.eqb_neq in H
         | H : negb _ = true |- _ => apply negb_true_iff in H
         | H : negb _ = false |- _ => apply negb_false_iff in H
         | H : (_ || _)%bool = true |- _ => apply orb_true_iff in H; destruct H
         | H : (_ || _)%bool = false |- _ => apply orb_false_iff in H; destruct H
         end.

Ltac not_terminal :=
  let T := fresh "T" in
  intros [T | T]; cbn in T; congruence.

(* ================================================================= *)
(** ** The shape of one transaction *)

Lemma call_shape (gl : Env) (c : Call) (w : World) :
  StepShape w (call gl c w).
Proof.
  destruct c; exec; repeat (branch; exec); tests.
  all: try (apply Quiet; cbn;
            [ reflexivity
            | intros T; first [ split; [reflexivity | eexists; reflexivity]
                              | exfalso; revert T; not_terminal ]
            | first [ intros NT; exact NT | intros _; not_terminal ] ]; fail).
  all: try (eapply Refused; cbn; [ not_terminal | reflexivity | reflexivity | reflexivity ]; fail).
  all: try (eapply Paid; cbn;
            [ not_terminal | reflexivity | reflexivity
            | first [ now left | now right ] | first [ now left | now right ] ]; fail).
Qed.

(** No method writes the fields that the constructor fixes. *)
Lemma call_keeps_terms (gl : Env) (c : Call) (w : World) :
  let j' := self (snd (call gl c w)) in
  client j' = client (self w) /\
  job_title j' = job_title (self w) /\
  requirements j' = requirements (self w) /\
  payment_amount j' = payment_amount (self w) /\
  created_at j' = created_at (self w) /\
  deadline j' = deadline (self w).
Proof.
  destruct c; exec; repeat (branch; exec); cbn; repeat split; reflexivity.
Qed.

Lemma run_app (w : World) (txs txs' : list (Env * Call)) :
  run w (txs ++ txs') = run (run w txs) txs'.
Proof. apply fold_left_app. Qed.

Lemma run_snoc (w : World) (txs : list (Env * Call)) (tx : Env * Call) :
  run w (txs ++ [tx]) = snd (call (fst tx) (snd tx) (run w txs)).
Proof. rewrite run_app. reflexivity. Qed.

(* ================================================================= *)
(** ** The gateway log *)

Lemma init_open (gl : Env) (title reqs : string) (hours : Z) (j : Job) :
  init gl title reqs hours = inr j ->
  status j = "open" /\ freelancer j = no_address /\
  client j = message_sender gl /\ 0 < payment_amount j /\
  submission_url j = EmptyString /\ evaluation_result j = EmptyString /\
  deadline j = created_at j + hours * 3600 /\ 0 < hours.
Proof.
  unfold init. intros H.
  repeat match type of H with
         | (if negb ?b then _ else _) = _ => destruct b eqn:?; cbn in H; try discriminate
         end.
  injection H as <-. cbn. repeat split; try reflexivity; lia.
Qed.

Lemma ledger_step (j : Job) (gl : Env) (c : Call) (w : World) :
  LedgerInv j w -> LedgerInv j (snd (call gl c w)).
Proof.
  intros [Hamt Hlog].
  pose proof (call_keeps_terms gl c w) as (_ & _ & _ & Hpay & _).
  split; [congruence |].
  destruct (call_shape gl c w) as [Hsame Hterm Hopen | to Hopen Hadd _ Hst | to v Hopen Hadd _ Hterm _].
  - destruct Hlog as [[Hnt Hall] | [Ht Hlast]].
    + left. split; [auto | now rewrite Hsame].
    + right. destruct (Hterm Ht) as [Heq _]. rewrite Heq. cbn. auto.
  - destruct Hlog as [[Hnt Hall] | [Ht _]]; [| contradiction].
    left. split.
    + intros [T | T]; apply Hopen; [left | right]; congruence.
    + rewrite Hadd. apply Forall_app. split; [assumption |].
      constructor; [reflexivity | constructor].
  - destruct Hlog as [[Hnt Hall] | [Ht _]]; [| contradiction].
    right. split; [assumption |].
    eexists _, _. split; [exact Hadd |]. repeat split; cbn; auto.
Qed.

Lemma ledger_run (j : Job) (txs : list (Env * Call)) (w : World) :
  LedgerInv j w -> LedgerInv j (run w txs).
Proof.
  revert w. induction txs as [| [gl c] txs IH]; intros w H; cbn; [assumption |].
  apply IH. unfold step. cbn. now apply ledger_step.
Qed.

Lemma ledger_deployed (gl : Env) (title reqs : string) (hours : Z) (j : Job) :
  init gl title reqs hours = inr j -> LedgerInv j (deployed j).
Proof.
  intros H. apply init_open in H as (Hst & _).
  split; [reflexivity |]. left. split; [| constructor].
  not_terminal.
Qed.

Lemma filter_all_false {A : Type} (f : A -> bool) (l : list A) :
  Forall (fun a => f a = false) l -> filter f l = [].
Proof.
  induction 1 as [| a l Ha _ IH]; cbn; [reflexivity |]. now rewrite Ha.
Qed.

Lemma terminal_run (w : World) (txs : list (Env * Call)) :
  terminal (self w) -> run w txs = w.
Proof.
  intros Ht. induction txs as [| [gl c] txs IH]; cbn; [reflexivity |].
  unfold step at 2. cbn.
  destruct (call_shape gl c w) as [_ Hterm _ | ? Hopen | ? ? Hopen];
    try contradiction.
  destruct (Hterm Ht) as [-> _]. exact IH.
Qed.

Lemma example_init :
  init example_deploy "Build a Landing Page"
       "Create a responsive landing page with hero section, features grid, and contact form"
       72 = inr example_job.
Proof. reflexivity. Qed.

Lemma disbursed_snoc (w : World) (ts : list Transfer) (t : Transfer) :
  transfers w = (ts ++ [t])%list ->
  disbursed w = (filter carried_out ts ++ (if carried_out t then [t] else []))%list.
Proof.
  intros H. unfold disbursed. rewrite H, filter_app. cbn.
  destruct (carried_out t); reflexivity.
Qed.

(** C1. Over the whole life of a job, from its deployment through any
    sequence of transactions: the gateway moves funds at most once, and
    what it moves is the payment amount, on a job that is then closed; a
    gateway that never raises is called at most once; a transaction calls
    the gateway at most once, only on a job that is not yet closed, and
    the call either moves the payment while the job goes to [completed] or
    [refunded] and the method returns, or raises and fails the
    transaction; [evaluate_and_release] on a closed job raises the
    assertion error of its status check and changes nothing. *)
Theorem disbursed_at_most_once
        (gl0 : Env) (title reqs : string) (hours : Z) (j : Job)
        (txs : list (Env * Call)) :
  init gl0 title reqs hours = inr j ->
  let w := run (deployed j) txs in
  (List.length (disbursed w) <= 1)%nat
  /\ (forall t, In t (disbursed w) ->
                amount t = payment_amount j /\ terminal (self w))
  /\ (Forall (fun t => carried_out t = true) (transfers w) ->
      (List.length (transfers w) <= 1)%nat)
  /\ (forall gl c,
         let r := call gl c w in
         (exists called, transfers (snd r) = (transfers w ++ called)%list
                         /\ (List.length called <= 1)%nat)
         /\ (transfers (snd r) <> transfers w ->
             ~ terminal (self w)
             /\ ((terminal (self (snd r)) /\ exists v, fst r = Return v)
                 \/ (exists to amt, fst r = Raise (TransferError to amt))))
         /\ (disbursed (snd r) <> disbursed w ->
             ~ terminal (self w) /\ terminal (self (snd r))
             /\ exists v, fst r = Return v))
  /\ (terminal (self w) ->
      forall gl,
        evaluate_and_release gl w =
        (Raise (AssertionError "No submission to evaluate"), w)).
Proof.
  intros Hinit w.
  assert (Hinv : LedgerInv j w)
    by (apply ledger_run; eapply ledger_deployed; eassumption).
  destruct Hinv as [Hamt Hlog].
  repeat apply conj.
  - destruct Hlog as [[_ Hall] | [_ (pre & t & Hts & Hpre & Ht & _)]].
    + unfold disbursed. rewrite (filter_all_false _ _ Hall). cbn. lia.
    + rewrite (disbursed_snoc _ _ _ Hts), (filter_all_false _ _ Hpre), Ht.
      cbn. lia.
  - intros t Hin.
    destruct Hlog as [[_ Hall] | [Hterm (pre & t' & Hts & Hpre & Ht & Ha)]].
    + unfold disbursed in Hin. rewrite (filter_all_false _ _ Hall) in Hin.
      destruct Hin.
    + rewrite (disbursed_snoc _ _ _ Hts), (filter_all_false _ _ Hpre), Ht in Hin.
      destruct Hin as [<- | []]. split; assumption.
  - intros Hok.
    destruct Hlog as [[_ Hall] | [_ (pre & t & Hts & Hpre & _)]].
    + destruct (transfers w) as [| t ts]; cbn; [lia |].
      inversion Hok; inversion Hall; congruence.
    + rewrite Hts in *. apply Forall_app in Hok as [Hok _].
      destruct pre as [| p pre]; cbn; [lia |].
      inversion Hok; inversion Hpre; congruence.
  - intros gl c r. subst r.
    destruct (call_shape gl c w)
      as [Hsame _ _ | to Hopen Hadd Hraise _ | to v Hopen Hadd Hret Hterm _].
    + repeat apply conj.
      * exists []. rewrite app_nil_r. split; [assumption | cbn; lia].
      * intros Hne. contradiction.
      * intros Hne. unfold disbursed in Hne. rewrite Hsame in Hne. contradiction.
    + repeat apply conj.
      * eexists. split; [exact Hadd | cbn; lia].
      * intros _. split; [assumption |]. right. eauto.
      * intros Hne. rewrite (disbursed_snoc _ _ _ Hadd) in Hne. cbn in Hne.
        rewrite app_nil_r in Hne. contradiction.
    + repeat apply conj.
      * eexists. split; [exact Hadd | cbn; lia].
      * intros _. split; [assumption |]. left. eauto.
      * intros _. eauto.
  - intros Hterm gl. exec. destruct Hterm as [-> | ->]; reflexivity.
Qed.

Lemma disbursed_at_most_once_witness :
  init example_deploy "Build a Landing Page"
       "Create a responsive landing page with hero section, features grid, and contact form"
       72 = inr example_job
  /\ (List.length (disbursed (run (deployed example_job) example_happy_path)) <= 1)%nat.
Proof.
  split; [reflexivity |].
  exact (proj1 (disbursed_at_most_once example_deploy _ _ 72 example_job
                  example_happy_path example_init)).
Defined.

(* ================================================================= *)
(** ** Closed jobs *)

(** C3. On a job whose status is [completed] or [refunded] every public
    write method raises the assertion error of one of its precondition
    checks and leaves the world as it was, so that no sequence of
    transactions changes the status, or anything else, again. *)
Theorem terminal_is_final (w : World) :
  terminal (self w) ->
  (forall gl,
      accept_job gl w = (Raise (AssertionError "Job not available"), w)
      /\ (forall url,
             submit_work gl url w =
             (Raise (AssertionError "Job not in progress"), w))
      /\ withdraw_as_freelancer gl w =
         (Raise (AssertionError "Can only withdraw from in-progress jobs"), w)
      /\ cancel_job gl w =
         (Raise (AssertionError "Can only cancel open jobs"), w)
      /\ claim_deadline_refund gl w =
         (Raise (AssertionError
                   (if deadline (self w) <? block_timestamp gl
                    then "Invalid status for deadline refund"
                    else "Deadline not yet passed")), w)
      /\ evaluate_and_release gl w =
         (Raise (AssertionError "No submission to evaluate"), w))
  /\ (forall txs, run w txs = w /\ status (self (run w txs)) = status (self w)).
Proof.
  intros Hterm. split.
  - intros gl. repeat apply conj; try intros url; exec;
      destruct Hterm as [-> | ->]; cbn;
      try destruct (deadline (self w) <? block_timestamp gl); reflexivity.
  - intros txs. rewrite (terminal_run w txs Hterm). split; reflexivity.
Qed.

Lemma terminal_is_final_witness :
  let w := run (deployed example_job) example_happy_path in
  terminal (self w)
  /\ cancel_job example_deploy w =
     (Raise (AssertionError "Can only cancel open jobs"), w).
Proof.
  assert (Hterm : terminal (self (run (deployed example_job) example_happy_path)))
    by (left; reflexivity).
  split; [exact Hterm |].
  exact (proj1 (proj2 (proj2 (proj2 (proj1 (terminal_is_final _ Hterm)
                                           example_deploy))))).
Defined.

(* ================================================================= *)
(** ** The evaluation protocol *)

(** C4. On a submitted job whose page cannot be fetched,
    [evaluate_and_release] sends no prompt to the judge, stores the
    rejection text followed by the text of the fetch error, and calls the
    gateway once, for the client and the full amount; when the gateway
    carries the transfer out the status becomes [refunded] and the method
    returns the dict with verdict [REJECTED] and reason
    [URL inaccessible]. *)
Theorem fetch_failure_refunds (gl : Env) (w : World) (detail : string) :
  status (self w) = "submitted" ->
  webpage gl (submission_url (self w)) = inr detail ->
  let r := evaluate_and_release gl w in
  let to := client (self w) in
  let amt := payment_amount (self w) in
  let text := "REJECTED: Could not access submission URL. Error: " ++ detail in
  prompts (snd r) = prompts w
  /\ evaluation_result (self (snd r)) = text
  /\ transfers (snd r) = (transfers w ++ [mkTransfer to amt (gateway gl to amt)])%list
  /\ (gateway gl to amt = true ->
      r = (Return (VDict [("verdict", "REJECTED"); ("reason", "URL inaccessible")]),
           mkWorld (set_status "refunded" (set_evaluation_result text (self w)))
                   (transfers w ++ [mkTransfer to amt true])
                   (prompts w))).
Proof.
  intros Hst Hweb r to amt text. subst r to amt text.
  exec. rewrite Hst, Hweb. cbn [String.eqb Ascii.eqb Bool.eqb]. exec.
  cbn [client payment_amount set_evaluation_result].
  destruct (gateway gl (client (self w)) (payment_amount (self w))); cbn;
    repeat split; try reflexivity; discriminate.
Qed.

Lemma fetch_failure_refunds_witness :
  let gl := example_env "0xA7" 4000 (inr "HTTP 404") "VERDICT: APPROVED" true in
  let w := deployed example_submitted in
  status (self w) = "submitted"
  /\ webpage gl (submission_url (self w)) = inr "HTTP 404"
  /\ prompts (snd (evaluate_and_release gl w)) = prompts w.
Proof.
  split; [reflexivity |]. split; [reflexivity |].
  exact (proj1 (fetch_failure_refunds
                  (example_env "0xA7" 4000 (inr "HTTP 404") "VERDICT: APPROVED" true)
                  (deployed example_submitted) "HTTP 404" eq_refl eq_refl)).
Defined.

Lemma parse_verdict_approved (ai_response : string) :
  has_approval_marker ai_response = true ->
  parse_verdict ai_response = "APPROVED".
Proof.
  unfold has_approval_marker, parse_verdict. intros ->. reflexivity.
Qed.

Lemma parse_verdict_rejected (ai_response : string) :
  has_approval_marker ai_response = false ->
  parse_verdict ai_response = "REJECTED".
Proof.
  unfold has_approval_marker, parse_verdict. intros ->.
  destruct (_ || _)%bool; reflexivity.
Qed.

(** What [evaluate_and_release] does once the page is fetched, in terms of
    the answer of the judge. *)
Lemma evaluate_fetched (gl : Env) (w : World) (content : string) :
  status (self w) = "submitted" ->
  webpage gl (submission_url (self w)) = inl content ->
  let prompt := evaluation_prompt (self w) content in
  let answer := llm gl prompt in
  let approved := (parse_verdict answer =? "APPROVED")%string in
  let to := if approved then freelancer (self w) else client (self w) in
  let amt := payment_amount (self w) in
  let judged := set_evaluation_result answer (self w) in
  evaluate_and_release gl w =
  if gateway gl to amt
  then (Return (VDict [("verdict", parse_verdict answer); ("evaluation", answer)]),
        mkWorld (set_status (if approved then "completed" else "refunded") judged)
                (transfers w ++ [mkTransfer to amt true])
                (prompts w ++ [prompt]))
  else (Raise (TransferError to amt),
        mkWorld judged
                (transfers w ++ [mkTransfer to amt false])
                (prompts w ++ [prompt])).
Proof.
  intros Hst Hweb prompt answer approved to amt judged.
  subst prompt answer approved to amt judged.
  exec. rewrite Hst, Hweb. cbn [String.eqb Ascii.eqb Bool.eqb]. exec.
  destruct (parse_verdict _ =? "APPROVED")%string; exec;
    cbn [client freelancer payment_amount set_evaluation_result];
    branch; reflexivity.
Qed.

(** C2, as the code has it.  On a submitted job whose page is fetched, an
    answer whose upper-casing holds neither [VERDICT: APPROVED] nor
    [VERDICT:APPROVED] is parsed as [REJECTED]; the gateway is called once,
    for the client and the full amount, the status does not become
    [completed], and when the gateway carries the transfer out the status
    becomes [refunded] and the method returns verdict [REJECTED] with the
    answer. *)
Theorem default_deny (gl : Env) (w : World) (content : string) :
  status (self w) = "submitted" ->
  webpage gl (submission_url (self w)) = inl content ->
  let answer := llm gl (evaluation_prompt (self w) content) in
  PyStr.contains "VERDICT: APPROVED" (PyStr.upper answer) = false ->
  PyStr.contains "VERDICT:APPROVED" (PyStr.upper answer) = false ->
  let r := evaluate_and_release gl w in
  let to := client (self w) in
  let amt := payment_amount (self w) in
  parse_verdict answer = "REJECTED"
  /\ transfers (snd r) = (transfers w ++ [mkTransfer to amt (gateway gl to amt)])%list
  /\ status (self (snd r)) <> "completed"
  /\ evaluation_result (self (snd r)) = answer
  /\ (gateway gl to amt = true ->
      fst r = Return (VDict [("verdict", "REJECTED"); ("evaluation", answer)])
      /\ status (self (snd r)) = "refunded").
Proof.
  intros Hst Hweb answer Ha1 Ha2 r to amt.
  assert (Hv : parse_verdict answer = "REJECTED").
  { apply parse_verdict_rejected. unfold has_approval_marker.
    now rewrite Ha1, Ha2. }
  subst r. rewrite (evaluate_fetched gl w content Hst Hweb). cbv zeta.
  fold answer. rewrite Hv. cbn [String.eqb Ascii.eqb Bool.eqb]. fold to amt.
  destruct (gateway gl to amt); cbn; rewrite ?Hst;
    repeat split; try reflexivity; try discriminate.
Qed.

Lemma default_deny_witness :
  let gl := example_env "0xA7" 4000 (inl "index.html")
                        "The work looks fine, approved." true in
  let w := deployed example_submitted in
  status (self w) = "submitted"
  /\ status (self (snd (evaluate_and_release gl w))) = "refunded".
Proof.
  split; [reflexivity |].
  exact (proj2 (proj2 (proj2 (proj2 (proj2
           (default_deny
              (example_env "0xA7" 4000 (inl "index.html")
                           "The work looks fine, approved." true)
              (deployed example_submitted) "index.html"
              eq_refl eq_refl eq_refl eq_refl)))) eq_refl)).
Defined.

(** C2 as stated fails: the answer [VERDICT:APPROVED] does not hold the
    marker [VERDICT: APPROVED], in any case of letters, and still it
    releases the payment to the freelancer and completes the job. *)
Lemma default_deny_counterexample :
  let gl := example_env "0xA7" 4000 (inl "index.html") "VERDICT:APPROVED" true in
  let w := deployed example_submitted in
  status (self w) = "submitted"
  /\ PyStr.contains "VERDICT: APPROVED" (PyStr.upper "VERDICT:APPROVED") = false
  /\ evaluate_and_release gl w =
     (Return (VDict [("verdict", "APPROVED"); ("evaluation", "VERDICT:APPROVED")]),
      mkWorld (set_status "completed"
                 (set_evaluation_result "VERDICT:APPROVED" example_submitted))
              [mkTransfer "0xF1" 1000000 true]
              [evaluation_prompt example_submitted "index.html"]).
Proof. cbv zeta. repeat split; reflexivity. Qed.

Lemma contains_eq (sub s : string) :
  PyStr.contains sub s =
  if String.prefix sub s then true
  else match s with
       | EmptyString => false
       | String _ rest => PyStr.contains sub rest
       end.
Proof. destruct s; reflexivity. Qed.

Lemma first_marker_eq (u : string) :
  first_marker u =
  if (String.prefix "VERDICT: APPROVED" u || String.prefix "VERDICT:APPROVED" u)%bool
  then Some "APPROVED"
  else if (String.prefix "VERDICT: REJECTED" u || String.prefix "VERDICT:REJECTED" u)%bool
  then Some "REJECTED"
  else match u with
       | EmptyString => None
       | String _ rest => first_marker rest
       end.
Proof. destruct u; reflexivity. Qed.

(** The first marker of a text that holds no approval marker is its first
    rejection marker, if it holds one. *)
Lemma first_marker_without_approval (u : string) :
  PyStr.contains "VERDICT: APPROVED" u = false ->
  PyStr.contains "VERDICT:APPROVED" u = false ->
  first_marker u =
  if (PyStr.contains "VERDICT: REJECTED" u || PyStr.contains "VERDICT:REJECTED" u)%bool
  then Some "REJECTED" else None.
Proof.
  induction u as [| c u IH].
  - intros _ _. reflexivity.
  - rewrite first_marker_eq, !(contains_eq _ (String c u)).
    destruct (String.prefix "VERDICT: APPROVED" (String c u)); [discriminate |].
    destruct (String.prefix "VERDICT:APPROVED" (String c u)); [discriminate |].
    intros H1 H2. change (false || false)%bool with false. cbv iota.
    destruct (String.prefix "VERDICT: REJECTED" (String c u)); [reflexivity |].
    destruct (String.prefix "VERDICT:REJECTED" (String c u)); cbv iota; cbn [orb].
    + now rewrite orb_true_r.
    + now apply IH.
Qed.

(** A marker found first is one of the two verdicts, and a text without
    any marker holds no approval marker. *)
Lemma first_marker_cases (u : string) :
  first_marker u = Some "APPROVED"
  \/ first_marker u = Some "REJECTED"
  \/ (first_marker u = None
      /\ PyStr.contains "VERDICT: APPROVED" u = false
      /\ PyStr.contains "VERDICT:APPROVED" u = false).
Proof.
  induction u as [| c u IH].
  - right; right. repeat split; reflexivity.
  - rewrite first_marker_eq, !(contains_eq _ (String c u)).
    destruct (String.prefix "VERDICT: APPROVED" (String c u)); [now left |].
    destruct (String.prefix "VERDICT:APPROVED" (String c u)); [now left |].
    change (false || false)%bool with false. cbv iota.
    destruct (String.prefix "VERDICT: REJECTED" (String c u)
              || String.prefix "VERDICT:REJECTED" (String c u))%bool;
      [right; now left |].
    exact IH.
Qed.

(** How the parsed verdict stands to the first marker of the text: the
    two agree, unless the text holds an approval marker behind a
    rejection marker that comes first. *)
Lemma parse_verdict_first_match (ai_response : string) :
  parse_verdict ai_response = first_match_wins ai_response
  \/ (has_approval_marker ai_response = true
      /\ first_marker (PyStr.upper ai_response) = Some "REJECTED").
Proof.
  destruct (has_approval_marker ai_response) eqn:Ha.
  - rewrite (parse_verdict_approved _ Ha). unfold first_match_wins.
    destruct (first_marker_cases (PyStr.upper ai_response))
      as [-> | [-> | (_ & H1 & H2)]]; [now left | now right |].
    unfold has_approval_marker in Ha. rewrite H1, H2 in Ha. discriminate.
  - left. rewrite (parse_verdict_rejected _ Ha). unfold first_match_wins.
    unfold has_approval_marker in Ha. apply orb_false_iff in Ha as [H1 H2].
    rewrite (first_marker_without_approval _ H1 H2).
    destruct (_ || _)%bool; reflexivity.
Qed.

(** C6, as the code has it.  An answer that holds an approval marker and
    a rejection marker is parsed as [APPROVED], wherever the two markers
    stand: the approval markers are looked for first.  The parsed verdict
    is that of the first marker of the text exactly when that first
    marker is an approval. *)
Theorem approval_marker_wins (ai_response : string) :
  has_approval_marker ai_response = true ->
  has_rejection_marker ai_response = true ->
  parse_verdict ai_response = "APPROVED"
  /\ (parse_verdict ai_response = first_match_wins ai_response
      <-> first_marker (PyStr.upper ai_response) = Some "APPROVED").
Proof.
  intros Ha _. rewrite (parse_verdict_approved _ Ha).
  split; [reflexivity |]. unfold first_match_wins.
  destruct (first_marker_cases (PyStr.upper ai_response))
    as [-> | [-> | (-> & _)]]; split; intros H;
    try reflexivity; discriminate.
Qed.

Lemma approval_marker_wins_witness :
  let answer := "VERDICT: REJECTED (the format asks for VERDICT: APPROVED or REJECTED)" in
  has_approval_marker answer = true
  /\ has_rejection_marker answer = true
  /\ parse_verdict answer = "APPROVED".
Proof.
  split; [reflexivity |]. split; [reflexivity |].
  exact (proj1 (approval_marker_wins
                  "VERDICT: REJECTED (the format asks for VERDICT: APPROVED or REJECTED)"
                  eq_refl eq_refl)).
Defined.

(** C6 as stated fails: in this answer the rejection marker comes first,
    and the parsed verdict is [APPROVED]. *)
Lemma first_match_wins_counterexample :
  let answer := "VERDICT: REJECTED (the format asks for VERDICT: APPROVED or REJECTED)" in
  has_approval_marker answer = true
  /\ has_rejection_marker answer = true
  /\ PyStr.find "VERDICT: REJECTED" (PyStr.upper answer) = Some 0%nat
  /\ PyStr.find "VERDICT: APPROVED" (PyStr.upper answer) = Some 39%nat
  /\ PyStr.find "VERDICT:APPROVED" (PyStr.upper answer) = None
  /\ first_match_wins answer = "REJECTED"
  /\ parse_verdict answer = "APPROVED"
  /\ parse_verdict answer <> first_match_wins answer.
Proof. cbv zeta. repeat split; try reflexivity. discriminate. Qed.

(** C8. The equivalence rule is symmetric and reflexive, and holds exactly
    of the pairs of texts with the same parsed verdict. *)
Theorem equivalent_symmetric_reflexive :
  (forall a b, equivalent a b = equivalent b a)
  /\ (forall a, equivalent a a = true)
  /\ (forall a b, equivalent a b = true <-> parse_verdict a = parse_verdict b).
Proof.
  unfold equivalent. repeat split.
  - intros a b. apply String.eqb_sym.
  - intros a. apply String.eqb_refl.
  - apply String.eqb_eq.
  - apply String.eqb_eq.
Qed.

(* ================================================================= *)
(** ** The deadline *)

(** C9. [time_remaining] is [max(0, deadline - now)]: it is never negative,
    it is 0 from the deadline on, it does not grow when the clock
    advances and it falls strictly while it is positive;
    [is_deadline_passed] holds exactly when [now > deadline]. *)
Theorem time_remaining_monotone (j : Job) (gl : Env) :
  time_remaining gl j = Z.max 0 (deadline j - block_timestamp gl)
  /\ 0 <= time_remaining gl j
  /\ (deadline j <= block_timestamp gl -> time_remaining gl j = 0)
  /\ (is_deadline_passed gl j = true <-> block_timestamp gl > deadline j)
  /\ (forall gl',
         block_timestamp gl < block_timestamp gl' ->
         time_remaining gl' j <= time_remaining gl j
         /\ (0 < time_remaining gl j ->
             time_remaining gl' j < time_remaining gl j)).
Proof.
  unfold time_remaining, is_deadline_passed.
  repeat apply conj.
  - destruct (Z.leb_spec (deadline j) (block_timestamp gl)); lia.
  - destruct (Z.leb_spec (deadline j) (block_timestamp gl)); lia.
  - destruct (Z.leb_spec (deadline j) (block_timestamp gl)); lia.
  - rewrite Z.ltb_lt. lia.
  - rewrite Z.ltb_lt. lia.
  - intros gl' Hlater.
    destruct (Z.leb_spec (deadline j) (block_timestamp gl));
      destruct (Z.leb_spec (deadline j) (block_timestamp gl')); lia.
Qed.

Lemma len_positive (s : string) : s <> EmptyString -> (0 <? PyStr.len s) = true.
Proof.
  destruct s as [| c s]; [contradiction |]. intros _.
  apply Z.ltb_lt. unfold PyStr.len.
  destruct (chunks_head c s) as (t & cs & ->). cbn [List.length]. lia.
Qed.

(** C10. [accept_job] and [submit_work] do not look at the clock: at any
    block timestamp, past the deadline or not, [accept_job] on an open job
    returns for every sender other than the client, and [submit_work] on
    a job in progress returns for the assigned freelancer and a non-empty
    URL.  The deadline counts only through [claim_deadline_refund]: called
    by the client past the deadline, on a job that is open or in progress,
    it refunds the client and closes the job. *)
Theorem accept_and_submit_ignore_deadline (gl : Env) (w : World) :
  (status (self w) = "open" ->
   message_sender gl <> client (self w) ->
   accept_job gl w =
   (Return VNone,
    mkWorld (set_status "in_progress" (set_freelancer (message_sender gl) (self w)))
            (transfers w) (prompts w)))
  /\ (forall url,
         status (self w) = "in_progress" ->
         message_sender gl = freelancer (self w) ->
         url <> EmptyString ->
         submit_work gl url w =
         (Return VNone,
          mkWorld (set_status "submitted" (set_submission_url url (self w)))
                  (transfers w) (prompts w)))
  /\ (deadline (self w) < block_timestamp gl ->
      status (self w) = "open" \/ status (self w) = "in_progress" ->
      message_sender gl = client (self w) ->
      gateway gl (client (self w)) (payment_amount (self w)) = true ->
      claim_deadline_refund gl w =
      (Return VNone,
       mkWorld (set_status "refunded" (self w))
               (transfers w ++ [mkTransfer (client (self w))
                                           (payment_amount (self w)) true])
               (prompts w))).
Proof.
  repeat apply conj.
  - intros Hst Hsender. exec. rewrite Hst. cbn [String.eqb Ascii.eqb Bool.eqb].
    apply String.eqb_neq in Hsender. now rewrite Hsender.
  - intros url Hst Hsender Hurl. exec.
    rewrite Hst, <- Hsender, !String.eqb_refl, (len_positive url Hurl).
    reflexivity.
  - intros Hlate Hst Hsender Hpay. exec.
    apply Z.ltb_lt in Hlate. rewrite Hlate, Hsender, !String.eqb_refl, Hpay.
    destruct Hst as [-> | ->]; reflexivity.
Qed.

Lemma accept_and_submit_ignore_deadline_witness :
  let late := example_env "0xF1" 999999 (inl "index.html") "VERDICT: APPROVED" true in
  deadline example_job < block_timestamp late
  /\ accept_job late (deployed example_job) =
     (Return VNone, deployed example_accepted)
  /\ submit_work late "https://github.com/example/landing-page"
                 (deployed example_accepted) =
     (Return VNone, deployed example_submitted).
Proof.
  cbv zeta. split; [reflexivity |]. split.
  - refine (proj1 (accept_and_submit_ignore_deadline
                     (example_env "0xF1" 999999 (inl "index.html")
                                  "VERDICT: APPROVED" true)
                     (deployed example_job)) eq_refl _).
    discriminate.
  - refine (proj1 (proj2 (accept_and_submit_ignore_deadline
                            (example_env "0xF1" 999999 (inl "index.html")
                                         "VERDICT: APPROVED" true)
                            (deployed example_accepted))) _ eq_refl eq_refl _).
    discriminate.
Defined.

(* ================================================================= *)
(** ** The freelancer field *)

Lemma freelancer_step (gl : Env) (c : Call) (w : World) :
  message_sender gl <> no_address ->
  FreelancerInv (self w) -> FreelancerInv (self (snd (call gl c w))).
Proof.
  intros Hsender Hinv.
  destruct c; exec; repeat (branch; exec); tests;
    try exact Hinv; unfold FreelancerInv in *; cbn;
    try (right; right; reflexivity);
    try (left; split; reflexivity).
  - right; left. split; [now left | assumption].
  - right; left. split; [auto |].
    destruct Hinv as [[Ho _] | [[_ Hf] | Hr]]; [congruence | assumption | congruence].
  - right; left. split; [auto |].
    destruct Hinv as [[Ho _] | [[_ Hf] | Hr]]; [congruence | assumption | congruence].
Qed.

Lemma freelancer_run (txs : list (Env * Call)) (w : World) :
  real_senders txs ->
  FreelancerInv (self w) -> FreelancerInv (self (run w txs)).
Proof.
  revert w. induction txs as [| [gl c] txs IH]; intros w Hreal Hinv; cbn;
    [assumption |].
  inversion Hreal as [| tx txs' Hhead Htail]; subst.
  apply IH; [assumption |]. unfold step. cbn.
  now apply freelancer_step.
Qed.

(** C7, as the code has it.  In every state reached from a deployment by
    transactions sent from real accounts: an open job has no freelancer,
    and a job without freelancer is open or refunded (cancelled, or
    refunded after the deadline, before anyone accepted). *)
Theorem freelancer_unset_when_open
        (gl0 : Env) (title reqs : string) (hours : Z) (j : Job)
        (txs : list (Env * Call)) :
  init gl0 title reqs hours = inr j ->
  real_senders txs ->
  let j' := self (run (deployed j) txs) in
  (status j' = "open" -> freelancer j' = no_address)
  /\ (freelancer j' = no_address ->
      status j' = "open" \/ status j' = "refunded").
Proof.
  intros Hinit Hreal j'.
  assert (Hinv : FreelancerInv j').
  { apply freelancer_run; [assumption |].
    apply init_open in Hinit as (Hst & Hf & _). left. now split. }
  unfold FreelancerInv in Hinv.
  destruct Hinv as [[Ho Hf] | [[Hs Hf] | Hr]]; split; intros H; auto.
  - destruct Hs as [Hs | [Hs | Hs]]; congruence.
  - contradiction.
  - unfold j' in *. congruence.
Qed.

Lemma freelancer_unset_when_open_witness :
  let txs := [ (example_env "0xF1" 2000 (inl "index.html") "VERDICT: APPROVED" true,
                AcceptJob);
               (example_env "0xF1" 3000 (inl "index.html") "VERDICT: APPROVED" true,
                WithdrawAsFreelancer) ] in
  real_senders txs
  /\ status (self (run (deployed example_job) txs)) = "open"
  /\ freelancer (self (run (deployed example_job) txs)) = no_address.
Proof.
  cbv zeta.
  assert (Hreal : real_senders
                    [ (example_env "0xF1" 2000 (inl "index.html") "VERDICT: APPROVED" true,
                       AcceptJob);
                      (example_env "0xF1" 3000 (inl "index.html") "VERDICT: APPROVED" true,
                       WithdrawAsFreelancer) ])
    by (repeat constructor; discriminate).
  split; [exact Hreal |]. split; [reflexivity |].
  exact (proj1 (freelancer_unset_when_open example_deploy _ _ 72 example_job _
                  example_init Hreal) eq_refl).
Defined.

(** C7 as stated fails: after the client cancels the open job the
    freelancer is still unset, and the status is [refunded], not [open]. *)
Lemma freelancer_unset_counterexample :
  let w := run (deployed example_job) [(example_deploy, CancelJob)] in
  real_senders [(example_deploy, CancelJob)]
  /\ freelancer (self w) = no_address
  /\ status (self w) = "refunded"
  /\ status (self w) <> "open".
Proof.
  cbv zeta. repeat split; try reflexivity; try discriminate.
  repeat constructor; discriminate.
Qed.

(* ================================================================= *)
(** ** Failed transactions *)

Lemma set_evaluation_result_same (j : Job) :
  set_evaluation_result (evaluation_result j) j = j.
Proof. destruct j; reflexivity. Qed.

(** C5, as the code has it.  A method that raises an assertion error
    leaves the whole world as it was.  A method that fails because the
    gateway raised has called the gateway once and has written no field
    other than [evaluation_result]: status, freelancer, submission URL and
    the fields fixed at deployment are as before, and outside
    [evaluate_and_release] the whole job record is. *)
Theorem failure_keeps_job (gl : Env) (c : Call) (w : World) (e : exn) :
  fst (call gl c w) = Raise e ->
  let w' := snd (call gl c w) in
  match e with
  | AssertionError _ => w' = w
  | TransferError to amt =>
      self w' = set_evaluation_result (evaluation_result (self w')) (self w)
      /\ (c <> EvaluateAndRelease -> self w' = self w)
      /\ transfers w' = (transfers w ++ [mkTransfer to amt false])%list
  end.
Proof.
  destruct c; exec; repeat (branch; exec); cbn; intros H;
    try discriminate; injection H as <-;
    repeat split; try reflexivity; try congruence;
    symmetry; apply set_evaluation_result_same.
Qed.

Lemma failure_keeps_job_witness :
  let gl := example_env "0xC11E" 2000 (inl "index.html") "VERDICT: APPROVED" false in
  let w := deployed example_job in
  fst (call gl CancelJob w) = Raise (TransferError "0xC11E" 1000000)
  /\ self (snd (call gl CancelJob w)) = self w.
Proof.
  cbv zeta. split; [reflexivity |].
  refine (proj1 (proj2 (failure_keeps_job
                          (example_env "0xC11E" 2000 (inl "index.html")
                                       "VERDICT: APPROVED" false)
                          CancelJob (deployed example_job)
                          (TransferError "0xC11E" 1000000) eq_refl)) _).
  discriminate.
Defined.

(** C5 as stated fails: when the gateway raises inside
    [evaluate_and_release], the answer of the judge is already stored in
    [evaluation_result], which was empty before the call. *)
Lemma failure_atomicity_counterexample :
  let gl := example_env "0xA7" 4000 (inl "index.html") "VERDICT: APPROVED" false in
  let w := deployed example_submitted in
  fst (evaluate_and_release gl w) = Raise (TransferError "0xF1" 1000000)
  /\ evaluation_result (self w) = EmptyString
  /\ evaluation_result (self (snd (evaluate_and_release gl w))) = "VERDICT: APPROVED"
  /\ status (self (snd (evaluate_and_release gl w))) = "submitted"
  /\ self (snd (evaluate_and_release gl w)) <> self w.
Proof.
  cbv zeta. repeat split; try reflexivity. discriminate.
Qed.

(* ================================================================= *)
(** ** The scenarios of the specification, run on the example job *)

(** Scenario A: accept, submit, approving judge: completed, paid to the
    freelancer. *)
Example scenario_approved :
  let w := run (deployed example_job) example_happy_path in
  status (self w) = "completed"
  /\ transfers w = [mkTransfer "0xF1" 1000000 true]
  /\ evaluation_result (self w) = "VERDICT: APPROVED".
Proof. cbv zeta. repeat split; reflexivity. Qed.

(** Scenario B: the judge rejects: refunded to the client. *)
Example scenario_rejected :
  let gl := example_env "0xA7" 4000 (inl "index.html")
                        "Verdict: rejected. The contact form is missing." true in
  let w := snd (evaluate_and_release gl (deployed example_submitted)) in
  status (self w) = "refunded"
  /\ transfers w = [mkTransfer "0xC11E" 1000000 true].
Proof. cbv zeta. repeat split; reflexivity. Qed.

(** Scenario C: the page cannot be fetched: refunded, the judge is not
    asked. *)
Example scenario_unreachable :
  let gl := example_env "0xA7" 4000 (inr "timed out") "VERDICT: APPROVED" true in
  evaluate_and_release gl (deployed example_submitted) =
  (Return (VDict [("verdict", "REJECTED"); ("reason", "URL inaccessible")]),
   mkWorld (set_status "refunded"
              (set_evaluation_result
                 "REJECTED: Could not access submission URL. Error: timed out"
                 example_submitted))
           [mkTransfer "0xC11E" 1000000 true]
           []).
Proof. reflexivity. Qed.

(** Scenario D: the client cannot accept the own job. *)
Example scenario_self_dealing :
  accept_job example_deploy (deployed example_job) =
  (Raise (AssertionError "Client cannot accept own job"), deployed example_job).
Proof. reflexivity. Qed.

(** Scenario E: a second freelancer cannot accept. *)
Example scenario_double_accept :
  let gl := example_env "0xF2" 2500 (inl "index.html") "VERDICT: APPROVED" true in
  accept_job gl (deployed example_accepted) =
  (Raise (AssertionError "Job not available"), deployed example_accepted).
Proof. reflexivity. Qed.

(** Scenario F: past the deadline the client claims the refund of a job in
    progress. *)
Example scenario_deadline_refund :
  let gl := example_env "0xC11E" 260201 (inl "index.html") "VERDICT: APPROVED" true in
  claim_deadline_refund gl (deployed example_accepted) =
  (Return VNone,
   mkWorld (set_status "refunded" example_accepted)
           [mkTransfer "0xC11E" 1000000 true]
           []).
Proof. reflexivity. Qed.

(** A gateway that raises leaves the job open, and the call can be made
    again. *)
Example scenario_gateway_raises :
  let down := example_env "0xC11E" 2000 (inl "index.html") "VERDICT: APPROVED" false in
  let w := run (deployed example_job) [(down, CancelJob); (example_deploy, CancelJob)] in
  status (self w) = "refunded"
  /\ transfers w = [mkTransfer "0xC11E" 1000000 false;
                    mkTransfer "0xC11E" 1000000 true]
  /\ disbursed w = [mkTransfer "0xC11E" 1000000 true].
Proof. cbv zeta. repeat split; reflexivity. Qed.

(* ================================================================= *)
(** ** The constructor *)

(** X1. The constructor returns a job exactly when the title and the
    requirements are not empty, the deadline hours are positive and a
    positive payment comes with the message; otherwise it raises the
    assertion error of the first check that fails, in the order title,
    requirements, deadline hours, payment. *)
Theorem init_validates (gl : Env) (title reqs : string) (hours : Z) :
  ((exists j, init gl title reqs hours = inr j)
   <-> title <> EmptyString /\ reqs <> EmptyString
       /\ 0 < hours /\ 0 < message_value gl)
  /\ (title = EmptyString ->
      init gl title reqs hours = inl (AssertionError "Job title required"))
  /\ (title <> EmptyString -> reqs = EmptyString ->
      init gl title reqs hours = inl (AssertionError "Requirements required"))
  /\ (title <> EmptyString -> reqs <> EmptyString -> hours <= 0 ->
      init gl title reqs hours = inl (AssertionError "Deadline must be in the future"))
  /\ (title <> EmptyString -> reqs <> EmptyString -> 0 < hours ->
      message_value gl <= 0 ->
      init gl title reqs hours = inl (AssertionError "Must include payment")).
Proof.
  repeat apply conj.
  - intros [j H]. unfold init in H.
    destruct (0 <? PyStr.len title) eqn:Ht; [| discriminate].
    destruct (0 <? PyStr.len reqs) eqn:Hr; [| discriminate].
    destruct (0 <? hours) eqn:Hh; [| discriminate].
    destruct (0 <? message_value gl) eqn:Hv; [| discriminate].
    apply Z.ltb_lt in Hh, Hv.
    repeat split; try assumption; intros ->; discriminate.
  - intros (Ht & Hr & Hh & Hv). unfold init.
    apply Z.ltb_lt in Hh, Hv.
    rewrite (len_positive _ Ht), (len_positive _ Hr), Hh, Hv.
    eexists. reflexivity.
  - intros ->. reflexivity.
  - intros Ht ->. unfold init. now rewrite (len_positive _ Ht).
  - intros Ht Hr Hh. unfold init. apply Z.ltb_ge in Hh.
    now rewrite (len_positive _ Ht), (len_positive _ Hr), Hh.
  - intros Ht Hr Hh Hv. unfold init. apply Z.ltb_lt in Hh. apply Z.ltb_ge in Hv.
    now rewrite (len_positive _ Ht), (len_positive _ Hr), Hh, Hv.
Qed.

(** X2. A job that the constructor returns is open, has no freelancer, no
    submission and no evaluation, belongs to the sender and holds the
    payment of the message; in the block of its deployment the deadline
    has not passed and the whole duration, 3600 seconds for each deadline
    hour, remains. *)
Theorem init_fresh_job (gl : Env) (title reqs : string) (hours : Z) (j : Job) :
  init gl title reqs hours = inr j ->
  status j = "open" /\ freelancer j = no_address
  /\ submission_url j = EmptyString /\ evaluation_result j = EmptyString
  /\ client j = message_sender gl
  /\ payment_amount j = message_value gl /\ 0 < payment_amount j
  /\ job_title j = title /\ requirements j = reqs
  /\ created_at j = block_timestamp gl
  /\ is_deadline_passed gl j = false
  /\ time_remaining gl j = hours * 3600 /\ 0 < time_remaining gl j.
Proof.
  intros H. pose proof (init_open _ _ _ _ _ H) as (_ & _ & _ & Hpay & _ & _ & _ & Hh).
  unfold init in H.
  repeat match type of H with
         | (if negb ?b then _ else _) = _ =>
             destruct b eqn:?; cbn in H; try discriminate
         end.
  injection H as <-. unfold is_deadline_passed, time_remaining. cbn.
  assert (Hlt : (block_timestamp gl + hours * 3600 <? block_timestamp gl) = false)
    by (apply Z.ltb_ge; lia).
  assert (Hle : (block_timestamp gl + hours * 3600 <=? block_timestamp gl) = false)
    by (apply Z.leb_gt; lia).
  rewrite Hlt, Hle. cbn in Hpay.
  repeat split; try reflexivity; lia.
Qed.

Lemma init_fresh_job_witness :
  init example_deploy "Build a Landing Page"
       "Create a responsive landing page with hero section, features grid, and contact form"
       72 = inr example_job
  /\ time_remaining example_deploy example_job = 72 * 3600.
Proof.
  split; [exact example_init |].
  exact (proj1 (proj2 (proj2 (proj2 (proj2 (proj2 (proj2 (proj2 (proj2 (proj2
           (proj2 (proj2 (init_fresh_job example_deploy _ _ 72 example_job
                            example_init))))))))))))).
Defined.

(* ================================================================= *)
(** ** The lifecycle *)

Lemma len_test (s : string) :
  if 0 <? PyStr.len s then s <> EmptyString else s = EmptyString.
Proof.
  destruct s as [| c s]; [reflexivity |].
  assert (H : (0 <? PyStr.len (String c s)) = true).
  { apply Z.ltb_lt. unfold PyStr.len.
    destruct (chunks_head c s) as (t & cs & ->). cbn [List.length]. lia. }
  rewrite H. discriminate.
Qed.

(** Turns the tests on integers and lengths into facts. *)
Ltac number_tests :=
  repeat match goal with
         | H : (0 <? PyStr.len ?s) = _ |- _ =>
             let L := fresh "L" in
             pose proof (len_test s) as L; rewrite H in L; clear H
         | H : (_ <? _) = true |- _ => apply Z.ltb_lt in H
         | H : (_ <? _) = false |- _ => apply Z.ltb_ge in H
         end.

(** The fields that the constructor fixes stay as they are over any
    sequence of transactions. *)
Lemma run_terms (w : World) (txs : list (Env * Call)) :
  client (self (run w txs)) = client (self w)
  /\ job_title (self (run w txs)) = job_title (self w)
  /\ requirements (self (run w txs)) = requirements (self w)
  /\ payment_amount (self (run w txs)) = payment_amount (self w)
  /\ created_at (self (run w txs)) = created_at (self w)
  /\ deadline (self (run w txs)) = deadline (self w).
Proof.
  revert w. induction txs as [| [gl c] txs IH]; intros w.
  - repeat split; reflexivity.
  - change (run w ((gl, c) :: txs)) with (run (step w (gl, c)) txs).
    destruct (IH (step w (gl, c))) as (H1 & H2 & H3 & H4 & H5 & H6).
    destruct (call_keeps_terms gl c w) as (K1 & K2 & K3 & K4 & K5 & K6).
    change (self (step w (gl, c))) with (self (snd (call gl c w))) in *.
    repeat split; congruence.
Qed.

(** X3. A call that returns moves the status along one edge of the
    lifecycle; a call that raises leaves the status as it was. *)
Theorem status_follows_lifecycle (gl : Env) (c : Call) (w : World) :
  (forall v, fst (call gl c w) = Return v ->
             transition (status (self w)) (status (self (snd (call gl c w)))))
  /\ (forall e, fst (call gl c w) = Raise e ->
                status (self (snd (call gl c w))) = status (self w)).
Proof.
  destruct c; exec; repeat (branch; exec); tests; cbn; split; intros ? Hr;
    try discriminate; try reflexivity; unfold transition;
    repeat first [ split; [assumption | reflexivity]
                 | left; split; [assumption | reflexivity]
                 | right ].
Qed.

(** X4. A call raises an assertion error, and then changes nothing,
    exactly when it is not authorised: [accept_job] is for anyone but the
    client on an open job, [submit_work] and [withdraw_as_freelancer] for
    the assigned freelancer of a job in progress, [cancel_job] for the
    client of an open job, [claim_deadline_refund] for the client past the
    deadline of a job that is open or in progress, and
    [evaluate_and_release] for anyone on a submitted job.  An authorised
    call returns, unless the gateway raises. *)
Theorem assertions_guard_authorisation (gl : Env) (c : Call) (w : World) :
  (authorised gl c (self w) ->
   (exists v, fst (call gl c w) = Return v)
   \/ (exists to amt, fst (call gl c w) = Raise (TransferError to amt)))
  /\ (~ authorised gl c (self w) ->
      exists msg, call gl c w = (Raise (AssertionError msg), w))
  /\ (forall v, fst (call gl c w) = Return v -> authorised gl c (self w)).
Proof.
  destruct c; exec; repeat (branch; exec); tests; number_tests;
    unfold authorised; cbn; repeat apply conj;
    try (intros; left; eexists; reflexivity);
    try (intros; right; eexists _, _; reflexivity);
    try (intros NA; exfalso; apply NA; tauto);
    try (intros; eexists; reflexivity);
    try (intros; discriminate);
    try (intros; tauto);
    try (intros (? & ? & ?); exfalso; (congruence || lia || tauto));
    try (intros (? & ?); exfalso; (congruence || lia || tauto));
    try (intros; exfalso; (congruence || lia || tauto)).
Qed.

(* ================================================================= *)
(** ** Invariants of the reachable states *)

(** A property that every call keeps holds after every sequence of
    transactions. *)
Lemma run_invariant (P : World -> Prop) :
  (forall gl c w, P w -> P (snd (call gl c w))) ->
  forall txs w, P w -> P (run w txs).
Proof.
  intros Hstep txs. induction txs as [| [gl c] txs IH]; intros w Hw.
  - exact Hw.
  - change (run w ((gl, c) :: txs)) with (run (step w (gl, c)) txs).
    apply IH. unfold step. cbn [fst snd]. now apply Hstep.
Qed.

Lemma known_status_step (gl : Env) (c : Call) (w : World) :
  known_status (status (self w)) ->
  known_status (status (self (snd (call gl c w)))).
Proof.
  intros H. destruct c; exec; repeat (branch; exec); cbn;
    try exact H; unfold known_status; tauto.
Qed.

(** X5. In every state reached from a deployment the status is one of
    [open], [in_progress], [submitted], [completed] and [refunded], and
    the terms of the deployment stand: the client is the deployer, the
    title and the requirements are those given, the payment amount is the
    positive value sent with the deployment, and the deadline is the
    creation time plus 3600 seconds for each deadline hour, after the
    creation time. *)
Theorem reachable_job_well_formed
        (gl0 : Env) (title reqs : string) (hours : Z) (j : Job)
        (txs : list (Env * Call)) :
  init gl0 title reqs hours = inr j ->
  let j' := self (run (deployed j) txs) in
  known_status (status j')
  /\ client j' = message_sender gl0
  /\ job_title j' = title /\ requirements j' = reqs
  /\ payment_amount j' = message_value gl0 /\ 0 < payment_amount j'
  /\ created_at j' = block_timestamp gl0
  /\ deadline j' = block_timestamp gl0 + hours * 3600
  /\ created_at j' < deadline j'.
Proof.
  intros Hinit j'. subst j'.
  apply (run_invariant
           (fun w => known_status (status (self w))
                     /\ client (self w) = message_sender gl0
                     /\ job_title (self w) = title
                     /\ requirements (self w) = reqs
                     /\ payment_amount (self w) = message_value gl0
                     /\ 0 < payment_amount (self w)
                     /\ created_at (self w) = block_timestamp gl0
                     /\ deadline (self w) = block_timestamp gl0 + hours * 3600
                     /\ created_at (self w) < deadline (self w))).
  - intros gl c w (Hk & Hc & Ht & Hr & Hp & Hpos & Hcr & Hd & Hlt).
    destruct (call_keeps_terms gl c w) as (K1 & K2 & K3 & K4 & K5 & K6).
    split; [now apply known_status_step |].
    repeat split; congruence.
  - unfold init in Hinit.
    repeat match type of Hinit with
           | (if negb ?b then _ else _) = _ =>
               destruct b eqn:?; cbn in Hinit; try discriminate
           end.
    injection Hinit as <-. cbn. number_tests.
    repeat split; try reflexivity; try lia.
    unfold known_status. now left.
Qed.

Lemma reachable_job_well_formed_witness :
  init example_deploy "Build a Landing Page"
       "Create a responsive landing page with hero section, features grid, and contact form"
       72 = inr example_job
  /\ known_status (status (self (run (deployed example_job) example_happy_path))).
Proof.
  split; [exact example_init |].
  exact (proj1 (reachable_job_well_formed example_deploy _ _ 72 example_job
                  example_happy_path example_init)).
Defined.

Lemma payee_step (gl : Env) (c : Call) (w : World) :
  PayeeInv w -> PayeeInv (snd (call gl c w)).
Proof.
  intros H.
  destruct c; exec; repeat (branch; exec); tests; try exact H;
    (destruct H as [[Hnt Hd] | [[Hs _] | [Hs _]]];
     [| repeat match goal with D : _ \/ _ |- _ => destruct D end; congruence ..]);
    unfold PayeeInv, disbursed in *; cbn [self transfers prompts];
    rewrite ?filter_app, ?Hd; cbn.
  all: try (left; split; [not_terminal | reflexivity]; fail).
  all: try (left; split; [exact Hnt | reflexivity]; fail).
  all: try (right; left; split; reflexivity).
  all: try (right; right; split; reflexivity).
Qed.

(** X6. In every state reached from a deployment the payment has moved
    exactly once if the job is closed and not at all otherwise: a job that
    is not closed has no carried-out transfer, a completed job has exactly
    one, of the payment amount to its freelancer, and a refunded job has
    exactly one, of the payment amount to its client. *)
Theorem payment_goes_to_one_party
        (gl0 : Env) (title reqs : string) (hours : Z) (j : Job)
        (txs : list (Env * Call)) :
  init gl0 title reqs hours = inr j ->
  let w := run (deployed j) txs in
  (~ terminal (self w) -> disbursed w = [])
  /\ (status (self w) = "completed" ->
      disbursed w = [mkTransfer (freelancer (self w)) (payment_amount j) true])
  /\ (status (self w) = "refunded" ->
      disbursed w = [mkTransfer (client j) (payment_amount j) true]).
Proof.
  intros Hinit w.
  assert (Hinv : PayeeInv w).
  { apply (run_invariant PayeeInv payee_step).
    left. split; [| reflexivity].
    apply init_open in Hinit as (Hst & _). not_terminal. }
  pose proof (run_terms (deployed j) txs) as (Hc & _ & _ & Hp & _).
  fold w in Hc, Hp. cbn in Hc, Hp. rewrite <- Hc, <- Hp.
  destruct Hinv as [[Hnt Hd] | [[Hs Hd] | [Hs Hd]]]; repeat split; intros H;
    try assumption; try congruence.
  - exfalso. apply Hnt. now left.
  - exfalso. apply Hnt. now right.
  - exfalso. apply H. now left.
  - exfalso. apply H. now right.
Qed.

Lemma payment_goes_to_one_party_witness :
  init example_deploy "Build a Landing Page"
       "Create a responsive landing page with hero section, features grid, and contact form"
       72 = inr example_job
  /\ status (self (run (deployed example_job) example_happy_path)) = "completed"
  /\ disbursed (run (deployed example_job) example_happy_path) =
     [mkTransfer "0xF1" 1000000 true].
Proof.
  split; [exact example_init |]. split; [reflexivity |].
  exact (proj1 (proj2 (payment_goes_to_one_party example_deploy _ _ 72 example_job
                         example_happy_path example_init)) eq_refl).
Defined.

Lemma snoc_not_nil {A : Type} (l : list A) (a : A) : (l ++ [a])%list <> [].
Proof. destruct l; discriminate. Qed.

Lemma audit_step (gl : Env) (c : Call) (w : World) :
  AuditInv w -> AuditInv (snd (call gl c w)).
Proof.
  intros H.
  destruct c; exec; repeat (branch; exec); tests; number_tests; try exact H;
    unfold AuditInv in *; cbn [self transfers prompts];
    cbn [status submission_url evaluation_result
         set_status set_freelancer set_submission_url set_evaluation_result];
    try (right; right; right; reflexivity).
  all: destruct H as [(Hs & Hu & He & Hp) | [(Hs & Hu) | [(Hs & _) | Hs]]];
    repeat match goal with D : _ \/ _ |- _ => destruct D end;
    try congruence.
  all: try (left; repeat split; auto; fail).
  all: try (right; left; split; [reflexivity | assumption]; fail).
  all: try (right; left; split; assumption).
  all: try (right; right; left;
            repeat split; [assumption | assumption | apply snoc_not_nil]; fail).
Qed.

(** X7. A completed job carries its approval: in every state reached
    from a deployment with status [completed], the stored evaluation is an
    answer that parses as [APPROVED], the submission URL is not empty and
    the judge has been asked. *)
Theorem completed_job_is_approved
        (gl0 : Env) (title reqs : string) (hours : Z) (j : Job)
        (txs : list (Env * Call)) :
  init gl0 title reqs hours = inr j ->
  let w := run (deployed j) txs in
  status (self w) = "completed" ->
  parse_verdict (evaluation_result (self w)) = "APPROVED"
  /\ submission_url (self w) <> EmptyString
  /\ prompts w <> [].
Proof.
  intros Hinit w Hst.
  assert (Hinv : AuditInv w).
  { apply (run_invariant AuditInv audit_step).
    apply init_open in Hinit as (Hs & _ & _ & _ & Hu & He & _).
    left. cbn. auto. }
  destruct Hinv as [([Hs | Hs] & _) | [(Hs & _) | [(_ & Hu & Hv & Hp) | Hs]]];
    try congruence.
  auto.
Qed.

Lemma completed_job_is_approved_witness :
  init example_deploy "Build a Landing Page"
       "Create a responsive landing page with hero section, features grid, and contact form"
       72 = inr example_job
  /\ status (self (run (deployed example_job) example_happy_path)) = "completed"
  /\ parse_verdict
       (evaluation_result (self (run (deployed example_job) example_happy_path)))
     = "APPROVED".
Proof.
  split; [exact example_init |]. split; [reflexivity |].
  exact (proj1 (completed_job_is_approved example_deploy _ _ 72 example_job
                  example_happy_path example_init eq_refl)).
Defined.

(** X8. Nothing is evaluated before a submission: in every state reached
    from a deployment, a job that is open or in progress has an empty
    submission URL and an empty evaluation, and the judge has not been
    asked; a submitted job has a non-empty submission URL. *)
Theorem nothing_evaluated_before_submission
        (gl0 : Env) (title reqs : string) (hours : Z) (j : Job)
        (txs : list (Env * Call)) :
  init gl0 title reqs hours = inr j ->
  let w := run (deployed j) txs in
  (status (self w) = "open" \/ status (self w) = "in_progress" ->
   submission_url (self w) = EmptyString
   /\ evaluation_result (self w) = EmptyString
   /\ prompts w = [])
  /\ (status (self w) = "submitted" -> submission_url (self w) <> EmptyString).
Proof.
  intros Hinit w.
  assert (Hinv : AuditInv w).
  { apply (run_invariant AuditInv audit_step).
    apply init_open in Hinit as (Hs & _ & _ & _ & Hu & He & _).
    left. cbn. auto. }
  destruct Hinv as [(Hs & Hu & He & Hp) | [(Hs & Hu) | [(Hs & _) | Hs]]];
    split; intros H; auto;
    repeat match goal with D : _ \/ _ |- _ => destruct D end; congruence.
Qed.

Lemma nothing_evaluated_before_submission_witness :
  init example_deploy "Build a Landing Page"
       "Create a responsive landing page with hero section, features grid, and contact form"
       72 = inr example_job
  /\ status (self (run (deployed example_job) (firstn 1 example_happy_path)))
     = "in_progress"
  /\ prompts (run (deployed example_job) (firstn 1 example_happy_path)) = [].
Proof.
  split; [exact example_init |]. split; [reflexivity |].
  exact (proj2 (proj2 (proj1 (nothing_evaluated_before_submission
                                example_deploy _ _ 72 example_job
                                (firstn 1 example_happy_path) example_init)
                             (or_intror eq_refl)))).
Defined.

(** X9. A submission is final: from a job that is submitted or closed, no
    sequence of transactions changes the submission URL or the
    freelancer, and the job stays submitted or closed. *)
Theorem submission_is_final (w : World) (txs : list (Env * Call)) :
  status (self w) = "submitted" \/ terminal (self w) ->
  let w' := run w txs in
  submission_url (self w') = submission_url (self w)
  /\ freelancer (self w') = freelancer (self w)
  /\ (status (self w') = "submitted" \/ terminal (self w')).
Proof.
  intros Hst w'. subst w'.
  apply (run_invariant
           (fun w' => submission_url (self w') = submission_url (self w)
                      /\ freelancer (self w') = freelancer (self w)
                      /\ (status (self w') = "submitted" \/ terminal (self w'))));
    [| auto].
  clear txs Hst. intros gl c w' (Hu & Hf & Hst).
  unfold terminal in *.
  destruct c; exec; repeat (branch; exec); tests; cbn;
    try (repeat split; assumption);
    try (exfalso; destruct Hst as [Hst | [Hst | Hst]];
         repeat match goal with D : _ \/ _ |- _ => destruct D end;
         congruence);
    repeat split; auto.
Qed.

Lemma submission_is_final_witness :
  let w := deployed example_submitted in
  let txs := [ (example_env "0xF1" 3500 (inl "index.html") "VERDICT: APPROVED" true,
                SubmitWork "https://example.com/other");
               (example_env "0xF1" 3600 (inl "index.html") "VERDICT: APPROVED" true,
                WithdrawAsFreelancer) ] in
  status (self w) = "submitted"
  /\ submission_url (self (run w txs)) = "https://github.com/example/landing-page".
Proof.
  cbv zeta. split; [reflexivity |].
  exact (proj1 (submission_is_final (deployed example_submitted) _
                  (or_introl eq_refl))).
Defined.

(** X10. No self-dealing: in every state reached from a deployment the
    freelancer, when one is set, is not the client. *)
Theorem freelancer_is_not_client
        (gl0 : Env) (title reqs : string) (hours : Z) (j : Job)
        (txs : list (Env * Call)) :
  init gl0 title reqs hours = inr j ->
  let j' := self (run (deployed j) txs) in
  freelancer j' = no_address \/ freelancer j' <> client j'.
Proof.
  intros Hinit j'. subst j'.
  apply (run_invariant
           (fun w => freelancer (self w) = no_address
                     \/ freelancer (self w) <> client (self w))).
  - intros gl c w H.
    destruct c; exec; repeat (branch; exec); tests; cbn; auto.
  - apply init_open in Hinit as (_ & Hf & _). now left.
Qed.

Lemma freelancer_is_not_client_witness :
  init example_deploy "Build a Landing Page"
       "Create a responsive landing page with hero section, features grid, and contact form"
       72 = inr example_job
  /\ (freelancer (self (run (deployed example_job) example_happy_path)) = no_address
      \/ freelancer (self (run (deployed example_job) example_happy_path))
         <> client (self (run (deployed example_job) example_happy_path))).
Proof.
  split; [exact example_init |].
  exact (freelancer_is_not_client example_deploy _ _ 72 example_job
           example_happy_path example_init).
Defined.

(** X11. Withdrawing undoes accepting: when a sender other than the client
    accepts an open job without freelancer and then withdraws, the world
    is again as it was before the acceptance. *)
Theorem withdraw_undoes_accept (gl gl' : Env) (w : World) :
  status (self w) = "open" ->
  freelancer (self w) = no_address ->
  message_sender gl <> client (self w) ->
  message_sender gl' = message_sender gl ->
  exists w1,
    accept_job gl w = (Return VNone, w1)
    /\ status (self w1) = "in_progress"
    /\ freelancer (self w1) = message_sender gl
    /\ withdraw_as_freelancer gl' w1 = (Return VNone, w).
Proof.
  intros Hst Hf Hsender Hsame.
  eexists. split; [| split; [| split]].
  - exec. rewrite Hst. apply String.eqb_neq in Hsender. rewrite Hsender.
    cbn. reflexivity.
  - reflexivity.
  - reflexivity.
  - exec. cbn. rewrite Hsame, String.eqb_refl.
    destruct w as [[cl fr ti re pa su st cr de ev] ts ps]. cbn in *.
    subst. reflexivity.
Qed.

Lemma withdraw_undoes_accept_witness :
  let gl := example_env "0xF1" 2000 (inl "index.html") "VERDICT: APPROVED" true in
  exists w1,
    accept_job gl (deployed example_job) = (Return VNone, w1)
    /\ status (self w1) = "in_progress"
    /\ freelancer (self w1) = message_sender gl
    /\ withdraw_as_freelancer gl w1 = (Return VNone, deployed example_job).
Proof.
  cbv zeta.
  refine (withdraw_undoes_accept
            (example_env "0xF1" 2000 (inl "index.html") "VERDICT: APPROVED" true)
            (example_env "0xF1" 2000 (inl "index.html") "VERDICT: APPROVED" true)
            (deployed example_job) eq_refl eq_refl _ eq_refl).
  discriminate.
Defined.

(** X12. The deadline itself is not past the deadline: at every block
    timestamp up to and including the deadline [claim_deadline_refund]
    raises [Deadline not yet passed], whoever calls and whatever the
    status, and [is_deadline_passed] is false; at the deadline exactly,
    [time_remaining] is already 0. *)
Theorem deadline_is_not_past (gl : Env) (w : World) :
  block_timestamp gl <= deadline (self w) ->
  claim_deadline_refund gl w =
  (Raise (AssertionError "Deadline not yet passed"), w)
  /\ is_deadline_passed gl (self w) = false
  /\ (block_timestamp gl = deadline (self w) -> time_remaining gl (self w) = 0).
Proof.
  intros Hle. apply Z.ltb_ge in Hle.
  repeat split.
  - exec. now rewrite Hle.
  - exact Hle.
  - intros Heq. unfold time_remaining. rewrite Heq, Z.leb_refl. reflexivity.
Qed.

Lemma deadline_is_not_past_witness :
  let gl := example_env "0xC11E" 260200 (inl "index.html") "VERDICT: APPROVED" true in
  block_timestamp gl <= deadline example_accepted
  /\ claim_deadline_refund gl (deployed example_accepted) =
     (Raise (AssertionError "Deadline not yet passed"), deployed example_accepted)
  /\ time_remaining gl example_accepted = 0.
Proof.
  cbv zeta.
  assert (Hle : block_timestamp
                  (example_env "0xC11E" 260200 (inl "index.html")
                               "VERDICT: APPROVED" true)
                <= deadline (self (deployed example_accepted)))
    by (cbn; lia).
  split; [exact Hle |]. split.
  - exact (proj1 (deadline_is_not_past _ (deployed example_accepted) Hle)).
  - exact (proj2 (proj2 (deadline_is_not_past _ (deployed example_accepted) Hle))
                 eq_refl).
Defined.

(** X13. The payment cannot get stuck: in every state reached from a
    deployment in which the job is not closed, once the deadline has
    passed and with a gateway that carries transfers out, the client
    closes the job with one call: [cancel_job] if the job is open,
    [claim_deadline_refund] if it is in progress, and
    [evaluate_and_release], which anyone may call, if it is submitted. *)
Theorem funds_never_stuck
        (gl0 : Env) (title reqs : string) (hours : Z) (j : Job)
        (txs : list (Env * Call)) (gl : Env) :
  init gl0 title reqs hours = inr j ->
  let w := run (deployed j) txs in
  ~ terminal (self w) ->
  (forall to amt, gateway gl to amt = true) ->
  deadline (self w) < block_timestamp gl ->
  message_sender gl = client (self w) ->
  let r := call gl (closing_call (self w)) w in
  (exists v, fst r = Return v) /\ terminal (self (snd r)).
Proof.
  intros Hinit w Hopen Hpay Hlate Hsender r. subst r.
  assert (Hk : known_status (status (self w))).
  { apply (run_invariant (fun w => known_status (status (self w)))
                         known_status_step).
    apply init_open in Hinit as (Hs & _). unfold known_status. now left. }
  apply Z.ltb_lt in Hlate.
  unfold closing_call, terminal in *.
  destruct Hk as [Hs | [Hs | [Hs | [Hs | Hs]]]]; rewrite Hs;
    cbn [String.eqb Ascii.eqb Bool.eqb]; try tauto; exec;
    rewrite ?Hs, ?Hlate, ?Hsender, ?String.eqb_refl;
    cbn [String.eqb Ascii.eqb Bool.eqb orb].
  - rewrite Hpay. cbn. split; [eexists; reflexivity | now right].
  - rewrite Hpay. cbn. split; [eexists; reflexivity | now right].
  - destruct (webpage gl (submission_url (self w))); exec.
    + destruct (parse_verdict _ =? "APPROVED")%string; exec; rewrite Hpay; cbn;
        (split; [eexists; reflexivity |]); [now left | now right].
    + rewrite Hpay. cbn. split; [eexists; reflexivity | now right].
Qed.

Lemma funds_never_stuck_witness :
  let gl := example_env "0xC11E" 300000 (inl "index.html") "VERDICT: APPROVED" true in
  let w := run (deployed example_job) (firstn 1 example_happy_path) in
  init example_deploy "Build a Landing Page"
       "Create a responsive landing page with hero section, features grid, and contact form"
       72 = inr example_job
  /\ status (self w) = "in_progress"
  /\ terminal (self (snd (call gl (closing_call (self w)) w))).
Proof.
  cbv zeta. split; [exact example_init |]. split; [reflexivity |].
  refine (proj2 (funds_never_stuck example_deploy _ _ 72 example_job
                   (firstn 1 example_happy_path)
                   (example_env "0xC11E" 300000 (inl "index.html")
                                "VERDICT: APPROVED" true)
                   example_init _ (fun _ _ => eq_refl) eq_refl eq_refl)).
  intros [H | H]; discriminate H.
Defined.

Lemma parse_verdict_binary (ai_response : string) :
  parse_verdict ai_response = "APPROVED" \/ parse_verdict ai_response = "REJECTED".
Proof.
  destruct (has_approval_marker ai_response) eqn:H.
  - left. now apply parse_verdict_approved.
  - right. now apply parse_verdict_rejected.
Qed.

(** X14. What [evaluate_and_release] returns agrees with what it did: when
    it returns, the dict starts with the verdict, and either the verdict
    is [APPROVED], the status is [completed] and the one transfer it made
    went to the freelancer, or the verdict is [REJECTED], the status is
    [refunded] and the one transfer went to the client; in both cases the
    transfer is of the full payment amount. *)
Theorem returned_verdict_matches_outcome (gl : Env) (w : World) (v : value) :
  fst (evaluate_and_release gl w) = Return v ->
  let w' := snd (evaluate_and_release gl w) in
  exists verdict rest,
    v = VDict (("verdict", verdict) :: rest)
    /\ ((verdict = "APPROVED" /\ status (self w') = "completed"
         /\ transfers w' =
            (transfers w ++ [mkTransfer (freelancer (self w))
                                        (payment_amount (self w)) true])%list)
        \/ (verdict = "REJECTED" /\ status (self w') = "refunded"
            /\ transfers w' =
               (transfers w ++ [mkTransfer (client (self w))
                                           (payment_amount (self w)) true])%list)).
Proof.
  exec. destruct (status (self w) =? "submitted")%string; [| discriminate].
  destruct (webpage gl (submission_url (self w))) as [content | e]; exec.
  - destruct (parse_verdict_binary (llm gl (evaluation_prompt (self w) content)))
      as [Hv | Hv]; rewrite Hv; cbn [String.eqb Ascii.eqb Bool.eqb]; exec;
      cbn [client freelancer payment_amount set_evaluation_result];
      branch; cbn; intros H; try discriminate; injection H as <-;
      eexists _, _; (split; [reflexivity |]); [left | right];
      repeat split; reflexivity.
  - cbn [client freelancer payment_amount set_evaluation_result].
    branch; cbn; intros H; try discriminate. injection H as <-.
    eexists _, _. split; [reflexivity |]. right. repeat split; reflexivity.
Qed.

Lemma returned_verdict_matches_outcome_witness :
  let gl := example_env "0xA7" 4000 (inl "index.html") "VERDICT: APPROVED" true in
  let w := deployed example_submitted in
  exists verdict rest,
    VDict [("verdict", "APPROVED"); ("evaluation", "VERDICT: APPROVED")]
    = VDict (("verdict", verdict) :: rest)
    /\ ((verdict = "APPROVED"
         /\ status (self (snd (evaluate_and_release gl w))) = "completed"
         /\ transfers (snd (evaluate_and_release gl w)) =
            (transfers w ++ [mkTransfer (freelancer (self w))
                                        (payment_amount (self w)) true])%list)
        \/ (verdict = "REJECTED"
            /\ status (self (snd (evaluate_and_release gl w))) = "refunded"
            /\ transfers (snd (evaluate_and_release gl w)) =
               (transfers w ++ [mkTransfer (client (self w))
                                           (payment_amount (self w)) true])%list)).
Proof.
  cbv zeta.
  exact (returned_verdict_matches_outcome
           (example_env "0xA7" 4000 (inl "index.html") "VERDICT: APPROVED" true)
           (deployed example_submitted)
           (VDict [("verdict", "APPROVED"); ("evaluation", "VERDICT: APPROVED")])
           eq_refl).
Defined.

(* ================================================================= *)
(** ** The verdict parser and the prompt *)

Lemma prefix_app (m b : string) : String.prefix m (m ++ b) = true.
Proof.
  induction m as [| c m IH]; cbn; [now destruct b |].
  destruct (ascii_dec c c); [exact IH | contradiction].
Qed.

Lemma contains_app_r (sub a b : string) :
  PyStr.contains sub b = true -> PyStr.contains sub (a ++ b) = true.
Proof.
  intros H. induction a as [| c a IH]; [exact H |].
  change (String c a ++ b) with (String c (a ++ b)).
  rewrite contains_eq, IH. now destruct (String.prefix sub _).
Qed.

Lemma contains_middle (sub a b : string) :
  PyStr.contains sub (a ++ sub ++ b) = true.
Proof.
  apply contains_app_r. rewrite contains_eq. now rewrite prefix_app.
Qed.

(** X15. An approval marker anywhere wins: an answer that holds, in any
    case of letters and between any two texts, [VERDICT: APPROVED] or
    [VERDICT:APPROVED] is parsed as [APPROVED], whatever stands before and
    after it. *)
Theorem approval_marker_anywhere (before marker after : string) :
  PyStr.upper marker = "VERDICT: APPROVED"
  \/ PyStr.upper marker = "VERDICT:APPROVED" ->
  parse_verdict (before ++ marker ++ after) = "APPROVED".
Proof.
  intros H. apply parse_verdict_approved. unfold has_approval_marker.
  assert (Hne : marker <> EmptyString)
    by (intros ->; destruct H; discriminate).
  assert (Hst : PyStr.starts_cont marker = false)
    by (rewrite <- (proj1 (upper_starts marker));
        destruct H as [-> | ->]; reflexivity).
  assert (Hend : PyStr.ends_ascii marker = true)
    by (apply upper_last_D; destruct H as [-> | ->]; reflexivity).
  rewrite upper_app_clean
    by (destruct marker; [contradiction | exact Hst]).
  rewrite (upper_app_ascii marker after Hend).
  destruct H as [-> | ->]; rewrite contains_middle;
    [reflexivity | apply orb_true_r].
Qed.

Lemma approval_marker_anywhere_witness :
  PyStr.upper "Verdict: Approved" = "VERDICT: APPROVED"
  /\ parse_verdict
       ("VERDICT: REJECTED. I would only say " ++ "Verdict: Approved"
        ++ " if the form worked.") = "APPROVED".
Proof.
  split; [reflexivity |].
  exact (approval_marker_anywhere "VERDICT: REJECTED. I would only say "
           "Verdict: Approved" " if the form worked." (or_introl eq_refl)).
Defined.


(** X17. The parser does not see the case of letters: the verdict of an
    answer is the verdict of its upper-casing, and two answers with the
    same upper-casing have the same verdict. *)
Theorem parse_verdict_ignores_case (ai_response : string) :
  parse_verdict (PyStr.upper ai_response) = parse_verdict ai_response
  /\ (forall other,
         PyStr.upper other = PyStr.upper ai_response ->
         parse_verdict other = parse_verdict ai_response).
Proof.
  split.
  - unfold parse_verdict. now rewrite upper_idempotent.
  - intros other H. unfold parse_verdict. now rewrite H.
Qed.

(** X18. The prompt is bounded in the page: for a job and a page whose
    texts are well-formed, the length of the prompt in code points is
    1007 plus the lengths of the title, the requirements and the
    submission URL plus the length of the page, of which at most 4000
    code points count. *)
Theorem prompt_length (j : Job) (submission_content : string) :
  PyStr.is_text (job_title j) = true ->
  PyStr.is_text (requirements j) = true ->
  PyStr.is_text (submission_url j) = true ->
  PyStr.is_text submission_content = true ->
  PyStr.len (evaluation_prompt j submission_content) =
  1007 + PyStr.len (job_title j) + PyStr.len (requirements j)
  + PyStr.len (submission_url j)
  + Z.min 4000 (PyStr.len submission_content)
  /\ PyStr.len (evaluation_prompt j submission_content) <=
     5007 + PyStr.len (job_title j) + PyStr.len (requirements j)
     + PyStr.len (submission_url j).
Proof.
  intros Ht Hr Hu Hc.
  apply is_text_starts in Ht, Hr, Hu, Hc.
  assert (H : PyStr.len (evaluation_prompt j submission_content) =
              1007 + PyStr.len (job_title j) + PyStr.len (requirements j)
              + PyStr.len (submission_url j)
              + Z.min 4000 (PyStr.len submission_content)).
  { unfold evaluation_prompt.
    repeat rewrite len_app_clean
      by (repeat first [ reflexivity | assumption
                       | apply starts_cont_app | apply slice_to_starts ]).
    rewrite len_slice_to.
    repeat match goal with
           | |- context [PyStr.len (String ?a ?s)] =>
               let v := eval vm_compute in (PyStr.len (String a s)) in
               change (PyStr.len (String a s)) with v
           end.
    change (Z.of_nat 4000) with 4000. lia. }
  split; [exact H | rewrite H; lia].
Qed.

Lemma prompt_length_witness :
  PyStr.is_text (job_title example_submitted) = true
  /\ PyStr.is_text "index.html" = true
  /\ PyStr.len (evaluation_prompt example_submitted "index.html") =
     1007 + PyStr.len (job_title example_submitted)
     + PyStr.len (requirements example_submitted)
     + PyStr.len (submission_url example_submitted)
     + Z.min 4000 (PyStr.len "index.html").
Proof.
  split; [reflexivity |]. split; [reflexivity |].
  exact (proj1 (prompt_length example_submitted "index.html"
                  eq_refl eq_refl eq_refl eq_refl)).
Defined.

(* ================================================================= *)
(** ** The snapshot and the equivalence of answers *)

Lemma to_int_proper (n : Z) :
  Z.to_int n <> Decimal.Pos Decimal.Nil /\ Z.to_int n <> Decimal.Neg Decimal.Nil.
Proof.
  destruct n as [| p | p]; cbn; split; try discriminate;
    intros H; injection H as H; exact (DecimalPos.Unsigned.to_uint_nonnil p H).
Qed.

Lemma str_int_parses (n : Z) :
  NilZero.int_of_string (str_int n) = Some (Z.to_int n).
Proof.
  unfold str_int. destruct (to_int_proper n) as [Hp Hn].
  now apply NilZero.isi.
Qed.

Lemma str_int_inj (n m : Z) : str_int n = str_int m -> n = m.
Proof.
  intros H. apply DecimalZ.to_int_inj.
  pose proof (str_int_parses n) as Hn. rewrite H, str_int_parses in Hn.
  now injection Hn.
Qed.

(** X19. The snapshot loses nothing: two jobs with the same
    [get_job_details] are the same job; and the decimal text of each
    integer in the snapshot reads back as that integer. *)
Theorem get_job_details_is_lossless (j j' : Job) :
  (get_job_details j = get_job_details j' -> j = j')
  /\ option_map Z.of_int (NilZero.int_of_string (str_int (payment_amount j)))
     = Some (payment_amount j)
  /\ option_map Z.of_int (NilZero.int_of_string (str_int (deadline j)))
     = Some (deadline j)
  /\ option_map Z.of_int (NilZero.int_of_string (str_int (created_at j)))
     = Some (created_at j).
Proof.
  repeat split; try (rewrite str_int_parses; cbn; now rewrite DecimalZ.of_to).
  unfold get_job_details. intros H.
  injection H as Ht Hr Hp Hc Hf Hs Hu Hd Hcr He.
  apply str_int_inj in Hp, Hd, Hcr.
  destruct j, j'. cbn in *. congruence.
Qed.

(** X20. The verdict is binary, so that agreement on the verdict splits
    the answers into two classes: every answer parses as [APPROVED] or as
    [REJECTED], as [APPROVED] exactly when it holds an approval marker;
    [equivalent] is transitive, and of any three answers two are
    equivalent. *)
Theorem verdict_is_binary :
  (forall a, parse_verdict a = "APPROVED" \/ parse_verdict a = "REJECTED")
  /\ (forall a, parse_verdict a = "APPROVED" <-> has_approval_marker a = true)
  /\ (forall a b c, equivalent a b = true -> equivalent b c = true ->
                    equivalent a c = true)
  /\ (forall a b c, equivalent a b = true \/ equivalent b c = true
                    \/ equivalent a c = true).
Proof.
  repeat apply conj.
  - exact parse_verdict_binary.
  - intros a. split.
    + intros H. destruct (has_approval_marker a) eqn:Ha; [reflexivity |].
      rewrite (parse_verdict_rejected _ Ha) in H. discriminate.
    + apply parse_verdict_approved.
  - unfold equivalent. intros a b c Hab Hbc.
    apply String.eqb_eq in Hab, Hbc. apply String.eqb_eq. congruence.
  - unfold equivalent. intros a b c.
    destruct (parse_verdict_binary a) as [-> | ->],
             (parse_verdict_binary b) as [-> | ->],
             (parse_verdict_binary c) as [-> | ->]; cbn; auto.
Qed.

(* ================================================================= *)
(** ** More on the evaluation and on who can act *)

(** X21. The answer of the judge is stored as it came: on a submitted
    job whose page is fetched, [evaluate_and_release] asks the judge once,
    with the prompt built from the job and the page, and stores the answer
    unchanged in [evaluation_result], even an empty one, whatever the
    verdict and whether the gateway then carries the transfer out or
    raises. *)
Theorem answer_is_stored_verbatim (gl : Env) (w : World) (content : string) :
  status (self w) = "submitted" ->
  webpage gl (submission_url (self w)) = inl content ->
  let w' := snd (evaluate_and_release gl w) in
  let prompt := evaluation_prompt (self w) content in
  prompts w' = (prompts w ++ [prompt])%list
  /\ evaluation_result (self w') = llm gl prompt
  /\ (llm gl prompt = EmptyString ->
      evaluation_result (self w') = EmptyString
      /\ (status (self w') = "refunded" \/ status (self w') = "submitted")).
Proof.
  intros Hst Hweb w' prompt. subst w' prompt.
  rewrite (evaluate_fetched gl w content Hst Hweb). cbv zeta.
  repeat split.
  - branch; reflexivity.
  - branch; reflexivity.
  - rewrite H. branch; reflexivity.
  - rewrite H. change (parse_verdict EmptyString) with "REJECTED".
    cbn [String.eqb Ascii.eqb Bool.eqb].
    branch; cbn; [now left | now right].
Qed.

Lemma answer_is_stored_verbatim_witness :
  let gl := example_env "0xA7" 4000 (inl "index.html") EmptyString true in
  let w := deployed example_submitted in
  status (self w) = "submitted"
  /\ prompts (snd (evaluate_and_release gl w)) =
     [evaluation_prompt example_submitted "index.html"]
  /\ evaluation_result (self (snd (evaluate_and_release gl w))) = EmptyString.
Proof.
  cbv zeta. split; [reflexivity |].
  pose proof (answer_is_stored_verbatim
                (example_env "0xA7" 4000 (inl "index.html") EmptyString true)
                (deployed example_submitted) "index.html" eq_refl eq_refl)
    as (Hp & He & _).
  split; [exact Hp | exact He].
Defined.

(** X22. [evaluate_and_release] is open to anyone at any time: what it
    returns and what it does depend on the page, the judge and the
    gateway, not on the sender, the value of the message or the block
    timestamp. *)
Theorem evaluate_ignores_sender_and_clock (gl gl' : Env) (w : World) :
  webpage gl' = webpage gl ->
  llm gl' = llm gl ->
  gateway gl' = gateway gl ->
  evaluate_and_release gl' w = evaluate_and_release gl w.
Proof.
  intros Hw Hl Hg. exec. rewrite Hw.
  destruct (status (self w) =? "submitted")%string; [| reflexivity].
  destruct (webpage gl (submission_url (self w))); exec; rewrite ?Hl, ?Hg.
  - destruct (parse_verdict _ =? "APPROVED")%string; exec; rewrite Hg; reflexivity.
  - reflexivity.
Qed.

Lemma evaluate_ignores_sender_and_clock_witness :
  let gl := example_env "0xA7" 4000 (inl "index.html") "VERDICT: APPROVED" true in
  let gl' := mkEnv "0xC11E" 0 999999 (webpage gl) (llm gl) (gateway gl) in
  evaluate_and_release gl' (deployed example_submitted) =
  evaluate_and_release gl (deployed example_submitted).
Proof.
  cbv zeta.
  exact (evaluate_ignores_sender_and_clock _ _ (deployed example_submitted)
           eq_refl eq_refl eq_refl).
Defined.

(** X23. While a job is in progress and the deadline has not passed, the
    client can do nothing: every call of the client, when the freelancer
    is someone else, raises an assertion error and changes nothing. *)
Theorem client_waits_for_deadline (gl : Env) (c : Call) (w : World) :
  status (self w) = "in_progress" ->
  message_sender gl = client (self w) ->
  freelancer (self w) <> client (self w) ->
  block_timestamp gl <= deadline (self w) ->
  exists msg, call gl c w = (Raise (AssertionError msg), w).
Proof.
  intros Hst Hsender Hf Hearly.
  apply Z.ltb_ge in Hearly.
  assert (Hne : (message_sender gl =? freelancer (self w))%string = false)
    by (apply String.eqb_neq; congruence).
  destruct c; exec; rewrite ?Hearly, ?Hst, ?Hne;
    cbn [String.eqb Ascii.eqb Bool.eqb]; eexists; reflexivity.
Qed.

Lemma client_waits_for_deadline_witness :
  let gl := example_env "0xC11E" 5000 (inl "index.html") "VERDICT: APPROVED" true in
  status example_accepted = "in_progress"
  /\ exists msg,
       call gl ClaimDeadlineRefund (deployed example_accepted) =
       (Raise (AssertionError msg), deployed example_accepted).
Proof.
  cbv zeta. split; [reflexivity |].
  refine (client_waits_for_deadline
            (example_env "0xC11E" 5000 (inl "index.html") "VERDICT: APPROVED" true)
            ClaimDeadlineRefund (deployed example_accepted) eq_refl eq_refl _ _).
  - discriminate.
  - cbn. lia.
Defined.

(** X24. Never a partial payment: in every state reached from a
    deployment, every call of the gateway in the log, carried out or not,
    is for the full payment amount, and its recipient is the client or the
    freelancer of the job, the latter only once the job is submitted. *)
Theorem every_transfer_is_in_full
        (gl0 : Env) (title reqs : string) (hours : Z) (j : Job)
        (txs : list (Env * Call)) :
  init gl0 title reqs hours = inr j ->
  let w := run (deployed j) txs in
  Forall (fun t =>
            amount t = payment_amount j
            /\ (recipient t = client j
                \/ (recipient t = freelancer (self w)
                    /\ (status (self w) = "submitted" \/ terminal (self w)))))
         (transfers w).
Proof.
  intros Hinit w. subst w.
  apply (run_invariant
           (fun w =>
              (payment_amount (self w) = payment_amount j
               /\ client (self w) = client j)
              /\ Forall (fun t =>
                           amount t = payment_amount j
                           /\ (recipient t = client j
                               \/ (recipient t = freelancer (self w)
                                   /\ (status (self w) = "submitted"
                                       \/ terminal (self w)))))
                        (transfers w)
              /\ ((status (self w) = "submitted" \/ terminal (self w))
                  \/ Forall (fun t => recipient t = client j) (transfers w)))).
  - clear txs Hinit. intros gl c w ((Hp & Hc) & Hall & Hfront).
    unfold terminal in *.
    destruct c; exec; repeat (branch; exec); tests;
      cbn [self transfers prompts status freelancer client payment_amount
           set_status set_freelancer set_submission_url set_evaluation_result];
      try (split; [split; assumption | split; assumption]).
    all: (split; [split; assumption |]).
    all: try (destruct Hfront as [[Hs | [Hs | Hs]] | Hfront];
              repeat match goal with D : _ \/ _ |- _ => destruct D end;
              try congruence).
    all: repeat match goal with
                | |- _ /\ _ => split
                | |- Forall _ (_ ++ _) => apply Forall_app; split
                | |- Forall _ [_] => constructor; [| constructor]
                end;
      cbn [recipient amount carried_out]; auto.
    all: try (right; apply Forall_app; split; [assumption |];
              constructor; [cbn; congruence | constructor]; fail).
    all: try (eapply Forall_impl; [| exact Hfront]; cbv beta;
              intros t Ht; split; [| now left];
              rewrite Forall_forall in Hall; fail).
    all: try (eapply Forall_impl; [| exact Hall]; cbv beta;
              intros t (Ha & [Hr | (Hr & Hs')]); split; auto;
              repeat match goal with D : _ \/ _ |- _ => destruct D end;
              try congruence; auto; fail).
    all: try (left; auto; fail).
  - split; [split; reflexivity |]. split; [constructor |]. right. constructor.
Qed.

Lemma every_transfer_is_in_full_witness :
  init example_deploy "Build a Landing Page"
       "Create a responsive landing page with hero section, features grid, and contact form"
       72 = inr example_job
  /\ transfers (run (deployed example_job) example_happy_path) =
     [mkTransfer "0xF1" 1000000 true]
  /\ Forall (fun t =>
               amount t = payment_amount example_job
               /\ (recipient t = client example_job
                   \/ (recipient t =
                       freelancer (self (run (deployed example_job) example_happy_path))
                       /\ (status (self (run (deployed example_job) example_happy_path))
                           = "submitted"
                           \/ terminal (self (run (deployed example_job)
                                                  example_happy_path))))))
            (transfers (run (deployed example_job) example_happy_path)).
Proof.
  split; [exact example_init |]. split; [reflexivity |].
  exact (every_transfer_is_in_full example_deploy _ _ 72 example_job
           example_happy_path example_init).
Defined.

(* ================================================================= *)
(** ** Texts beyond ASCII *)

(** [str.upper] turns the dotless i into [I], so that the answer holds
    the approval marker. *)
Example upper_dotless_answer :
  PyStr.upper dotless_answer = "VERDICT: APPROVED"
  /\ parse_verdict dotless_answer = "APPROVED".
Proof. vm_compute. split; reflexivity. Qed.

(** On that answer the job is completed and the freelancer is paid. *)
Example scenario_dotless_answer :
  let gl := example_env "0xA7" 4000 (inl "index.html") dotless_answer true in
  let w := snd (evaluate_and_release gl (deployed example_submitted)) in
  status (self w) = "completed"
  /\ transfers w = [mkTransfer "0xF1" 1000000 true].
Proof. vm_compute. split; reflexivity. Qed.

(** [len] and slices count code points, not bytes; upper-casing can make
    a text longer. *)
Example code_points_are_counted :
  PyStr.len (PyStr.utf8 233) = 1
  /\ PyStr.len accented_text = 3
  /\ PyStr.slice_to 2 accented_text = PyStr.utf8 233 ++ "a"
  /\ PyStr.upper accented_text = PyStr.utf8 201 ++ "A" ++ PyStr.utf8 8364
  /\ PyStr.upper (PyStr.utf8 223) = "SS"
  /\ PyStr.is_text accented_text = true.
Proof. vm_compute. repeat split; reflexivity. Qed.
